(** * Synthetic PII record generator: data_generator.py

    A shallow embedding of [generate_data] and of its nested helper
    [perturb], together with the properties of the generated dataset.

    The Python code reads and writes two pieces of process-wide state: the
    hidden generator of the [random] module and the generator shared by every
    [Faker] instance.  Both are threaded explicitly through a small
    state-and-exception monad.  The two libraries themselves are external;
    they are taken as interfaces ([RandomModule], [FakerProvider]) and every
    result below holds for any implementation of them. *)

From Stdlib Require Import ZArith QArith Lia String Ascii List.
From stdpp Require Import base option list gmap strings pretty.

Local Open Scope string_scope.
Local Open Scope list_scope.
Local Open Scope Z_scope.

(** ** Python values *)

(** The exceptions the modelled fragment of Python can raise. *)
Inductive pyexn : Type :=
  | IndexError
  | ValueError
  | KeyError
  | TypeError.

(** A dictionary value of a record: a [str], or Python's [None]. *)
Abbreviation pyval := (option string).

(** One row: a Python [dict] from column name to value. *)
Abbreviation record := (gmap string (option string)).

(** Truthiness of a [str]-or-[None] value: [None] and the empty string are
    falsy, every other string is truthy. *)
Definition py_truth (v : pyval) : bool :=
  match v with
  | None => false
  | Some s => negb (String.eqb s "")
  end.

(** [len] of a list, as a Python integer. *)
Definition len {A} (l : list A) : Z := Z.of_nat (length l).

(** Resolution of a list subscript: a negative index counts from the end;
    an index outside [-len, len) has no position. *)
Definition py_index (n i : Z) : option nat :=
  let j := if i <? 0 then i + n else i in
  if (0 <=? j) && (j <? n) then Some (Z.to_nat j) else None.

(** [l[i]] *)
Definition list_getitem {A} (l : list A) (i : Z) : option A :=
  j ← py_index (len l) i; l !! j.

(** [l[i] = x] *)
Definition list_setitem {A} (l : list A) (i : Z) (x : A) : option (list A) :=
  j ← py_index (len l) i; Some (<[j:=x]> l).

(** [del l[i]] *)
Definition list_delitem {A} (l : list A) (i : Z) : option (list A) :=
  j ← py_index (len l) i; Some (delete j l).

(** [l.insert(i, x)]: the index is clamped to [0, len], never an error. *)
Definition list_insert {A} (l : list A) (i : Z) (x : A) : list A :=
  let i1 := if i <? 0 then i + len l else i in
  let i2 := if i1 <? 0 then 0 else i1 in
  let i3 := if len l <? i2 then len l else i2 in
  take (Z.to_nat i3) l ++ x :: drop (Z.to_nat i3) l.

(** [l[:n]] *)
Definition list_slice_to {A} (l : list A) (n : Z) : list A :=
  let stop := if n <? 0 then Z.max 0 (n + len l) else n in
  take (Z.to_nat stop) l.

(** [string.ascii_letters] *)
Definition ascii_letters : list ascii :=
  list_ascii_of_string "abcdefghijklmnopqrstuvwxyzABCDEFGHIJKLMNOPQRSTUVWXYZ".

(** [s.replace(old, new)] for a one-character [old]. *)
Fixpoint str_replace_char (old : ascii) (new : string) (s : string) : string :=
  match s with
  | EmptyString => EmptyString
  | String c rest =>
      if Ascii.eqb c old then new +:+ str_replace_char old new rest
      else String c (str_replace_char old new rest)
  end.

(** The line feed, ["\n"]. *)
Definition newline : ascii := ascii_of_nat 10.

(** A [datetime.date]. *)
Record date : Type := Date { year : nat; month : nat; day : nat }.

(** Decimal digits of [n], left-padded with zeros to [width]. *)
Definition zero_pad (width : nat) (n : nat) : string :=
  let s := pretty n in
  string_of_list_ascii (replicate (width - String.length s) "0"%char) +:+ s.

(** [str(d)] of a date: ISO format, [YYYY-MM-DD]. *)
Definition str_date (d : date) : string :=
  zero_pad 4 (year d) +:+ "-" +:+ zero_pad 2 (month d) +:+ "-" +:+ zero_pad 2 (day d).

(** ** Floats

    The only floats of the program are the results of [random.random()],
    which are multiples of 2^-53, and the literals [0.3] and [0.1]; they are
    only ever compared.  A float is therefore modelled by the rational it
    denotes, and the literals by the binary64 values nearest to them. *)

Definition float_0_3 : Q := 5404319552844595 # 18014398509481984.
Definition float_0_1 : Q := 3602879701896397 # 36028797018963968.

Definition float_lt (a b : Q) : bool := negb (Qle_bool b a).
Definition float_gt (a b : Q) : bool := negb (Qle_bool a b).

(** ** The external libraries *)

(** The [random] module: states of its hidden generator, [seed],
    [random()] and the internal [_randbelow(n)] on which [choice] and
    [randint] are built. *)
Class RandomModule (G : Type) : Type := {
  rng_seed : Z -> G;
  rng_random : G -> Q * G;
  rng_randbelow : Z -> G -> Z * G;
}.

(** What the program relies on: [_randbelow(n)] lies in [0, n). *)
Class RandomLaws (G : Type) `{RandomModule G} : Prop := {
  rng_randbelow_range : forall n g, 0 < n -> 0 <= fst (rng_randbelow n g) < n;
}.

(** The [Faker] field-value provider: states of the generator shared by all
    [Faker] instances, [Faker.seed], and the five providers the program
    calls. *)
Class FakerProvider (F : Type) : Type := {
  fk_seed : Z -> F;
  fk_uuid4 : F -> string * F;
  fk_name : F -> string * F;
  fk_address : F -> string * F;
  fk_city : F -> string * F;
  fk_date_of_birth : F -> date * F;
}.

(** The provider contract on identifiers: [uuid4()] never returns an
    identifier it has handed out before.  [fk_issued] is the (ghost) set of
    identifiers handed out so far. *)
Class FreshIds (F : Type) `{FakerProvider F} : Type := {
  fk_issued : F -> gset string;
  fk_uuid4_fresh : forall s, fst (fk_uuid4 s) ∉ fk_issued s;
  fk_uuid4_issued : forall s,
    {[ fst (fk_uuid4 s) ]} ∪ fk_issued s ⊆ fk_issued (snd (fk_uuid4 s));
  fk_name_issued : forall s, fk_issued s ⊆ fk_issued (snd (fk_name s));
  fk_address_issued : forall s, fk_issued s ⊆ fk_issued (snd (fk_address s));
  fk_city_issued : forall s, fk_issued s ⊆ fk_issued (snd (fk_city s));
  fk_date_of_birth_issued : forall s,
    fk_issued s ⊆ fk_issued (snd (fk_date_of_birth s));
}.

(** ** Global state and the monad of effects *)

(** The process-wide state the program touches. *)
Record world (G F : Type) : Type := World {
  py_random : G;      (* the generator behind the [random] module *)
  faker_random : F;   (* the generator shared by [Faker] instances *)
}.
Arguments World {G F} _ _.
Arguments py_random {G F} _.
Arguments faker_random {G F} _.

(** What running a piece of code gives: a value or an exception, and the
    state it leaves behind. *)
Inductive outcome (W A : Type) : Type :=
  | Return (a : A) (w : W)
  | Raise (e : pyexn) (w : W).
Arguments Return {W A} _ _.
Arguments Raise {W A} _ _.

Definition M (W A : Type) : Type := W -> outcome W A.

Definition ret {W A} (a : A) : M W A := fun w => Return a w.

Definition raise {W A} (e : pyexn) : M W A := fun w => Raise e w.

Definition bind {W A B} (c : M W A) (k : A -> M W B) : M W B :=
  fun w =>
    match c w with
    | Return a w' => k a w'
    | Raise e w' => Raise e w'
    end.

Notation "'let*' x ':=' c 'in' k" := (bind c (fun x => k))
  (at level 10, x name, c at level 100, k at level 200, only parsing).

(** A partial operation that raises [e] where it is undefined. *)
Definition or_raise {W A} (e : pyexn) (o : option A) : M W A :=
  match o with
  | Some a => ret a
  | None => raise e
  end.

(** [for _ in range(n): body], the loop body transforming the local [s]. *)
Fixpoint repeat_loop {W S} (n : nat) (body : S -> M W S) (s : S) : M W S :=
  match n with
  | O => ret s
  | S n' => let* s' := body s in repeat_loop n' body s'
  end.

Definition for_range {W S} (n : Z) (body : S -> M W S) (s : S) : M W S :=
  repeat_loop (Z.to_nat n) body s.

(** [for x in xs: body] *)
Fixpoint for_each {W A S} (xs : list A) (body : A -> S -> M W S) (s : S) : M W S :=
  match xs with
  | [] => ret s
  | x :: xs' => let* s' := body x s in for_each xs' body s'
  end.

(** ** The program *)

Section Program.
Context {G F : Type} {Rnd : RandomModule G} {Fk : FakerProvider F}.

Abbreviation W := (world G F).

(** *** Calls into the [random] module *)

(** [random.seed(seed)] *)
Definition random_seed (seed : Z) : M W unit :=
  fun w => Return tt (World (rng_seed seed) (faker_random w)).

(** [random.random()] *)
Definition random_random : M W Q :=
  fun w =>
    let (x, g) := rng_random (py_random w) in
    Return x (World g (faker_random w)).

(** [random._randbelow(n)] *)
Definition random_randbelow (n : Z) : M W Z :=
  fun w =>
    let (x, g) := rng_randbelow n (py_random w) in
    Return x (World g (faker_random w)).

(** [random.choice(seq)]: [IndexError] on an empty sequence, otherwise
    [seq[_randbelow(len(seq))]]. *)
Definition random_choice {A} (seq : list A) : M W A :=
  if len seq =? 0 then raise IndexError
  else let* i := random_randbelow (len seq) in
       or_raise IndexError (list_getitem seq i).

(** [random.randint(a, b)]: [ValueError] on an empty range, otherwise
    [a + _randbelow(b - a + 1)]. *)
Definition random_randint (a b : Z) : M W Z :=
  let width := b + 1 - a in
  if 0 <? width then let* k := random_randbelow width in ret (a + k)
  else raise ValueError.

(** *** Calls into [Faker] *)

(** [Faker.seed(seed)] *)
Definition Faker_seed (seed : Z) : M W unit :=
  fun w => Return tt (World (py_random w) (fk_seed seed)).

(** A provider call, advancing the shared [Faker] generator. *)
Definition fake {A} (provider : F -> A * F) : M W A :=
  fun w =>
    let (x, s) := provider (faker_random w) in
    Return x (World (py_random w) s).

(** *** [perturb] *)

(** The statement executed for the drawn [op] at position [idx]
    (the [if]/[elif] chain). *)
Definition perturb_apply (op : string) (idx : Z) (chars : list ascii)
  : M W (list ascii) :=
  if String.eqb op "del" then
    or_raise IndexError (list_delitem chars idx)
  else if String.eqb op "ins" then
    let* c := random_choice ascii_letters in
    ret (list_insert chars idx c)
  else if String.eqb op "rep" then
    let* c := random_choice ascii_letters in
    or_raise IndexError (list_setitem chars idx c)
  else if String.eqb op "swap" && (1 <? len chars) then
    let idx2 := if idx <? len chars - 1 then idx + 1 else idx - 1 in
    (* the right-hand side [chars[idx2], chars[idx]] is read first *)
    let* a := or_raise IndexError (list_getitem chars idx2) in
    let* b := or_raise IndexError (list_getitem chars idx) in
    let* chars1 := or_raise IndexError (list_setitem chars idx a) in
    or_raise IndexError (list_setitem chars1 idx2 b)
  else ret chars.

Definition perturb (text : pyval) : M W pyval :=
  if negb (py_truth text) then ret text
  else
    let* r := random_random in
    if float_gt r float_0_3 then ret text
    else
      (* [list(text)]; [list(None)] would be a [TypeError] *)
      let* chars := or_raise TypeError (list_ascii_of_string <$> text) in
      let* op := random_choice ["del"; "ins"; "rep"; "swap"] in
      let* idx := random_randint 0 (len chars - 1) in
      let* chars' := perturb_apply op idx chars in
      ret (Some (string_of_list_ascii chars')).

(** *** [generate_data] *)

(** [d[k]] on a dictionary. *)
Definition dict_getitem (d : record) (k : string) : M W pyval :=
  or_raise KeyError (d !! k).

(** [d.update({k1: v1, ...})]: the items are stored in order. *)
Definition dict_update (d : record) (items : list (string * pyval)) : record :=
  foldl (fun d' kv => <[kv.1 := kv.2]> d') d items.

(** The dropout loop, the same in both passes:
    [for field in ['address', 'city', 'date_of_birth']:
       if random.random() < 0.1: record[field] = None] *)
Definition dropout (rec : record) : M W record :=
  for_each ["address"; "city"; "date_of_birth"]
    (fun field rec' =>
       let* r := random_random in
       if float_lt r float_0_1 then ret (<[field := None]> rec')
       else ret rec')
    rec.

(** The provider state after the five calls of one unique record. *)
Definition after_unique (s : F) : F :=
  (fk_date_of_birth (fk_city (fk_address (fk_name (fk_uuid4 s).2).2).2).2).2.

(** Body of the first loop: one unique record appended to [data]. *)
Definition unique_step (data : list record) : M W (list record) :=
  let* uid := fake fk_uuid4 in
  let* nm := fake fk_name in
  let* addr := fake fk_address in
  let* cty := fake fk_city in
  let* dob := fake fk_date_of_birth in
  let rec : record :=
    dict_update ∅
      [("id", Some uid);
       ("original_id", Some uid);
       ("name", Some nm);
       ("address", Some (str_replace_char newline ", " addr));
       ("city", Some cty);
       ("date_of_birth", Some (str_date dob))] in
  let* rec' := dropout rec in
  ret (data ++ [rec']).

(** The [dup = orig.copy(); dup.update({...})] part of the second loop,
    for a given corruptor: a fresh [id], the corrupted [name], and the
    [address] corrupted only when the source has one. *)
Definition duplicate_update (corrupt : pyval -> M W pyval) (orig : record)
  : M W record :=
  (* [orig.copy()]: a new dictionary holding the same immutable values *)
  let dup := orig in
  let* uid := fake fk_uuid4 in
  let* nm := dict_getitem orig "name" in
  let* nm' := corrupt nm in
  let* cond := dict_getitem orig "address" in
  let* addr' :=
    (if py_truth cond then
       let* addr := dict_getitem orig "address" in corrupt addr
     else ret None) in
  ret (dict_update dup [("id", Some uid); ("name", nm'); ("address", addr')]).

(** What the second loop does with the sampled record [orig]. *)
Definition make_duplicate (orig : record) : M W record :=
  let* dup := duplicate_update perturb orig in
  dropout dup.

(** Body of the second loop: one duplicate appended to [data]. *)
Definition duplicate_step (n_unique : Z) (data : list record)
  : M W (list record) :=
  let* orig := random_choice (list_slice_to data n_unique) in
  let* dup := make_duplicate orig in
  ret (data ++ [dup]).

(** [pd.DataFrame(data)] of a list of dictionaries: one row per
    dictionary, in order. *)
Definition DataFrame (data : list record) : list record := data.

Definition generate_data (n_unique n_duplicates seed : Z) : M W (list record) :=
  (* [fake = Faker()] builds a proxy onto the shared generator *)
  let* _ := Faker_seed seed in
  let* _ := random_seed seed in
  let data : list record := [] in
  let* data := for_range n_unique unique_step data in
  let* data := for_range n_duplicates (duplicate_step n_unique) data in
  ret (DataFrame data).

End Program.

(** ** A concrete instance of the two libraries

    A small implementation of both interfaces, on which the program can be
    run: a generator that first replays a script of raw draws and then
    continues with a 64-bit linear congruential sequence, and a provider
    that numbers its answers. *)

Module Concrete.

Record script_rng : Type := ScriptRng { script : list Z; lcg : Z }.

Definition next_raw (g : script_rng) : Z * script_rng :=
  match script g with
  | x :: rest => (x, ScriptRng rest (lcg g))
  | [] =>
      let s := (lcg g * 6364136223846793005 + 1442695040888963407) mod 2 ^ 64 in
      (s / 2 ^ 11, ScriptRng [] s)
  end.

#[export] Instance script_random : RandomModule script_rng := {
  rng_seed seed := ScriptRng [] (seed mod 2 ^ 64);
  rng_random g :=
    let (x, g') := next_raw g in
    (Qmake (x mod 2 ^ 53) 9007199254740992, g');
  rng_randbelow n g :=
    let (x, g') := next_raw g in (x mod n, g');
}.

Definition names : list string :=
  ["Ann Lee"; "Bo Chen"; "Cy Diaz"; "Di Evans"].

Definition cities : list string :=
  ["Springfield"; "Riverton"; "Lakeside"].

#[export] Instance counter_faker : FakerProvider nat := {
  fk_seed seed := Z.abs_nat seed;
  fk_uuid4 n := ("id-" +:+ pretty n, S n);
  fk_name n := (nth (n mod 4) names "", S n);
  fk_address n :=
    (pretty n +:+ " Oak St" +:+ String newline "Springfield, IL 62704", S n);
  fk_city n := (nth (n mod 3) cities "", S n);
  fk_date_of_birth n := (Date 1980 (n mod 12 + 1) (n mod 28 + 1), S n);
}.

(** The same provider as it answers on the day [today]: like Faker's
    [date_of_birth()], it counts the birth date back from the current
    date, which no seeding resets. *)
Definition dated_faker (today : date) : FakerProvider nat := {|
  fk_seed seed := Z.abs_nat seed;
  fk_uuid4 n := ("id-" +:+ pretty n, S n);
  fk_name n := (nth (n mod 4) names "", S n);
  fk_address n :=
    (pretty n +:+ " Oak St" +:+ String newline "Springfield, IL 62704", S n);
  fk_city n := (nth (n mod 3) cities "", S n);
  fk_date_of_birth n :=
    (Date (year today - 18 - n mod 60) (month today) (day today), S n);
|}.

Definition issued (n : nat) : gset string :=
  list_to_set ((fun k => "id-" +:+ pretty k) <$> seq 0 n).

(** A unique record whose address was dropped. *)
Definition sample_record : record :=
  dict_update ∅
    [("id", Some "id-0"); ("original_id", Some "id-0");
     ("name", Some "Ann Lee"); ("address", None);
     ("city", Some "Springfield"); ("date_of_birth", Some "1980-01-01")].

(** A unique record whose address is the empty string. *)
Definition sample_record_empty_address : record :=
  dict_update ∅
    [("id", Some "id-0"); ("original_id", Some "id-0");
     ("name", Some "Ann Lee"); ("address", Some "");
     ("city", Some "Springfield"); ("date_of_birth", Some "1980-01-01")].

(** A world whose [random] generator replays [draws] first. *)
Definition scripted (draws : list Z) : world script_rng nat :=
  World (ScriptRng draws 0) 0%nat.

End Concrete.

(** ** Vocabulary of the specification *)

(** [c] run from [w] returns normally, with a value and a final state that
    satisfy [Q]. *)
Definition returns {W A} (c : M W A) (w : W) (Q : A -> W -> Prop) : Prop :=
  match c w with
  | Return a w' => Q a w'
  | Raise _ _ => False
  end.

(** [c] run from [w] ends in an exception. *)
Definition fails {W A} (c : M W A) (w : W) : Prop :=
  exists e w', c w = Raise e w'.

(** What an outcome shows through [f]: nothing if it is an exception. *)
Definition observe {W A B} (f : A -> B) (o : outcome W A) : option B :=
  match o with
  | Return a _ => Some (f a)
  | Raise _ _ => None
  end.

(** The state an outcome leaves behind. *)
Definition final_world {W A} (o : outcome W A) : W :=
  match o with
  | Return _ w => w
  | Raise _ w => w
  end.

(** The ground-truth columns of a dataset: [(id, original_id)] per row. *)
Definition ground_truth (df : list record) : list (option pyval * option pyval) :=
  (fun r : record => (r !! "id", r !! "original_id")) <$> df.

(** One character-level operation on a text: a character deleted, inserted
    or replaced at one position, or two neighbours exchanged. *)
Inductive one_edit : list ascii -> list ascii -> Prop :=
  | edit_delete l1 c l2 : one_edit (l1 ++ c :: l2) (l1 ++ l2)
  | edit_insert l1 c l2 : one_edit (l1 ++ l2) (l1 ++ c :: l2)
  | edit_replace l1 c c' l2 : one_edit (l1 ++ c :: l2) (l1 ++ c' :: l2)
  | edit_swap l1 a b l2 : one_edit (l1 ++ a :: b :: l2) (l1 ++ b :: a :: l2).

(** At most one such operation. *)
Definition at_most_one_edit (t t' : string) : Prop :=
  t' = t \/ one_edit (list_ascii_of_string t) (list_ascii_of_string t').

(** A record that is its own ground truth. *)
Definition self_referential (r : record) : Prop :=
  exists uid, r !! "id" = Some (Some uid) /\ r !! "original_id" = Some (Some uid).

(** A record whose [name] holds a string. *)
Definition has_name (r : record) : Prop :=
  exists nm, r !! "name" = Some (Some nm).

(** What the second pass needs of a record it samples: the two keys it
    reads. *)
Definition unique_ok (r : record) : Prop :=
  self_referential r /\ has_name r /\ is_Some (r !! "address").

(** The [id] column of a list of rows. *)
Definition id_column (rows : list record) : list (option pyval) :=
  (fun r : record => r !! "id") <$> rows.

(** The [random] module with another [seed] function, everything else
    the same. *)
Definition reseed_random {G} (f : Z -> G) (R : RandomModule G) : RandomModule G := {|
  rng_seed := f;
  rng_random := @rng_random G R;
  rng_randbelow := @rng_randbelow G R;
|}.

(** The provider with another [Faker.seed], everything else the same. *)
Definition reseed_faker {F} (f : Z -> F) (P : FakerProvider F) : FakerProvider F := {|
  fk_seed := f;
  fk_uuid4 := @fk_uuid4 F P;
  fk_name := @fk_name F P;
  fk_address := @fk_address F P;
  fk_city := @fk_city F P;
  fk_date_of_birth := @fk_date_of_birth F P;
|}.

Section GeneratorVocabulary.
Context {G F : Type} `{RandomModule G} `{FakerProvider F}.

(** The three draws [perturb] makes on a truthy text of [n] characters,
    from the state [w]: the float compared with [0.3], the index of the
    operation in the list of four, the position, and the generator they
    leave behind. *)
Definition perturb_draws (n : Z) (w : world G F) : Q * Z * Z * G :=
  let (r, g1) := rng_random (py_random w) in
  let (k, g2) := rng_randbelow 4 g1 in
  let (i, g3) := rng_randbelow n g2 in
  (r, k, i, g3).

(** The world both [seed] calls leave behind. *)
Definition seeded (seed : Z) : world G F := World (rng_seed seed) (fk_seed seed).

(** What the second pass guarantees of a row [dup], given the rows [U] of
    the first: it was built by [make_duplicate] from one of them. *)
Definition duplicate_ok (U : list record) (dup : record) : Prop :=
  has_name dup /\
  exists orig, orig ∈ U /\ dup !! "original_id" = orig !! "original_id" /\
               exists w0 w1 : world G F, make_duplicate orig w0 = Return dup w1.

End GeneratorVocabulary.

(** *** Rows of the dataset *)

(** The six columns of a row. *)
Definition columns : gset string :=
  list_to_set ["id"; "original_id"; "name"; "address"; "city"; "date_of_birth"].

(** Every character of [t'] is a character of [t] or an ASCII letter. *)
Definition only_adds_letters (t t' : string) : Prop :=
  forall c, c ∈ list_ascii_of_string t' ->
            c ∈ list_ascii_of_string t \/ c ∈ ascii_letters.

(** [t'] is what the corruptor can make of [t]. *)
Definition corrupted_text (t t' : string) : Prop :=
  at_most_one_edit t t' /\ only_adds_letters t t'.

(** A field after the dropout loop: the value [v] it had, or [None]. *)
Definition kept_or_dropped (v v' : option pyval) : Prop :=
  v' = v \/ v' = Some None.

(** The text has no line feed in it. *)
Definition single_line (t : string) : Prop :=
  newline ∉ list_ascii_of_string t.

Section DatasetVocabulary.
Context {G F : Type} `{RandomModule G} `{FakerProvider F}.

(** The provider state after the single call of one duplicate. *)
Definition after_duplicate (s : F) : F := (fk_uuid4 s).2.

(** The provider state before unique record number [i] (from 0) of a run
    seeded with [seed]. *)
Definition provider_before_unique (seed : Z) (i : nat) : F :=
  Nat.iter i after_unique (fk_seed seed).

(** The provider state before duplicate number [j] (from 0) of a run that
    made [n] unique records. *)
Definition provider_before_duplicate (seed : Z) (n j : nat) : F :=
  Nat.iter j after_duplicate (provider_before_unique seed n).

(** The provider state before row number [k] (from 0) of a dataset with
    [n] unique records. *)
Definition provider_before_row (seed : Z) (n k : nat) : F :=
  if (k <? n)%nat then provider_before_unique seed k
  else provider_before_duplicate seed n (k - n).

(** The unique record built from the provider state [s]: the provider's
    values, the address flattened, the three optional fields kept or
    dropped. *)
Definition unique_row (s : F) (r : record) : Prop :=
  let '(uid, s1) := fk_uuid4 s in
  let '(nm, s2) := fk_name s1 in
  let '(addr, s3) := fk_address s2 in
  let '(cty, s4) := fk_city s3 in
  let '(dob, _) := fk_date_of_birth s4 in
  dom r = columns /\
  r !! "id" = Some (Some uid) /\
  r !! "original_id" = Some (Some uid) /\
  r !! "name" = Some (Some nm) /\
  kept_or_dropped (Some (Some (str_replace_char newline ", " addr))) (r !! "address") /\
  kept_or_dropped (Some (Some cty)) (r !! "city") /\
  kept_or_dropped (Some (Some (str_date dob))) (r !! "date_of_birth").

(** The duplicate [dup] built from the record [orig] at the provider
    state [s]: a new [id], the ground truth of [orig], its name corrupted,
    its address corrupted or absent, its city and date of birth kept or
    dropped. *)
Definition duplicate_row (s : F) (orig dup : record) : Prop :=
  dom dup = columns /\
  dup !! "id" = Some (Some (fk_uuid4 s).1) /\
  dup !! "original_id" = orig !! "original_id" /\
  (exists nm nm', orig !! "name" = Some (Some nm) /\
                  dup !! "name" = Some (Some nm') /\ corrupted_text nm nm') /\
  (dup !! "address" = Some None \/
   exists a a', orig !! "address" = Some (Some a) /\ a <> "" /\
                dup !! "address" = Some (Some a') /\ corrupted_text a a') /\
  kept_or_dropped (orig !! "city") (dup !! "city") /\
  kept_or_dropped (orig !! "date_of_birth") (dup !! "date_of_birth").

End DatasetVocabulary.

(** ** Reasoning about effects *)

Section Effects.
Context {W : Type}.
Implicit Types w : W.

Lemma returns_ret {A} (a : A) w (Q : A -> W -> Prop) :
  Q a w -> returns (ret a) w Q.
Proof. done. Qed.

Lemma returns_bind {A B} (c : M W A) (k : A -> M W B) w (Q : B -> W -> Prop) :
  returns c w (fun a w' => returns (k a) w' Q) -> returns (bind c k) w Q.
Proof. unfold returns, bind. by destruct (c w). Qed.

Lemma returns_mono {A} (c : M W A) w (Q Q' : A -> W -> Prop) :
  (forall a w', Q a w' -> Q' a w') -> returns c w Q -> returns c w Q'.
Proof. unfold returns. destruct (c w); auto. Qed.

Lemma returns_exists {A} (c : M W A) w (Q : A -> W -> Prop) :
  returns c w Q <-> exists a w', c w = Return a w' /\ Q a w'.
Proof.
  unfold returns. split.
  - destruct (c w) as [a w'|]; [eauto | done].
  - by intros (a & w' & -> & HQ).
Qed.

(** A computation that returns returns what it returns. *)
Lemma returns_itself {A} (c : M W A) w (Q : A -> W -> Prop) :
  returns c w Q -> returns c w (fun a w' => c w = Return a w' /\ Q a w').
Proof. unfold returns. by destruct (c w). Qed.

Lemma bind_return {A B} (c : M W A) (k : A -> M W B) w a w' :
  c w = Return a w' -> bind c k w = k a w'.
Proof. unfold bind. by intros ->. Qed.

Lemma bind_ret {A B} (a : A) (k : A -> M W B) w : bind (ret a) k w = k a w.
Proof. done. Qed.

Lemma returns_or_raise {A} e (o : option A) w (Q : A -> W -> Prop) :
  (exists a, o = Some a /\ Q a w) -> returns (or_raise e o) w Q.
Proof. by intros (a & -> & HQ). Qed.

(** Loop rule: [Inv i] holds of the loop-carried value and the state
    before iteration [i]. *)
Lemma returns_repeat_loop {S} (Inv : nat -> S -> W -> Prop) n
    (body : S -> M W S) :
  (forall i s w, (i < n)%nat -> Inv i s w -> returns (body s) w (Inv (Datatypes.S i))) ->
  forall s w, Inv O s w -> returns (repeat_loop n body s) w (Inv n).
Proof.
  revert Inv. induction n as [|n IH]; intros Inv Hbody s w H0; [done|].
  cbn [repeat_loop]. apply returns_bind.
  eapply returns_mono; [|apply (Hbody O); [lia | done]].
  intros s' w' H1. cbv beta.
  apply (IH (fun i => Inv (Datatypes.S i))); [|done].
  intros i s'' w'' Hi. apply Hbody. lia.
Qed.

Lemma returns_for_each {A S} (Inv : list A -> S -> W -> Prop)
    (body : A -> S -> M W S) (xs : list A) :
  (forall seen x rest s w,
      xs = seen ++ x :: rest -> Inv seen s w ->
      returns (body x s) w (Inv (seen ++ [x]))) ->
  forall s w, Inv [] s w -> returns (for_each xs body s) w (Inv xs).
Proof.
  revert Inv.
  induction xs as [|x xs IH]; intros Inv Hbody s w H0; [done|].
  cbn [for_each]. apply returns_bind.
  eapply returns_mono; [|by apply (Hbody [] x xs)].
  intros s' w' H1. cbv beta.
  apply (IH (fun seen => Inv (x :: seen))); [|done].
  intros seen y rest s'' w'' -> Hd. by apply (Hbody (x :: seen) y rest).
Qed.

End Effects.

(** One step through [let* x := ret a in k]. *)
Ltac returns_step := apply returns_bind, returns_ret; cbv beta.

(** ** Python list operations *)

Section PyLists.
Context {A : Type}.
Implicit Types (l : list A) (i : Z).

Lemma len_app l1 l2 : len (l1 ++ l2) = len l1 + len l2.
Proof. unfold len. rewrite length_app. lia. Qed.

Lemma len_nil_iff l : len l = 0 <-> l = [].
Proof. unfold len. destruct l; cbn; split; (done || lia). Qed.

Lemma py_index_in_range n i :
  0 <= i < n -> py_index n i = Some (Z.to_nat i).
Proof.
  intros Hi. unfold py_index.
  destruct (Z.ltb_spec i 0); [lia|].
  destruct (Z.leb_spec 0 i); [|lia].
  destruct (Z.ltb_spec i n); [done | lia].
Qed.

Lemma list_getitem_in_range l i :
  0 <= i < len l ->
  exists x, list_getitem l i = Some x /\ l !! Z.to_nat i = Some x.
Proof.
  intros Hi. unfold list_getitem. rewrite py_index_in_range by done. cbn.
  destruct (lookup_lt_is_Some_2 l (Z.to_nat i)) as [x Hx];
    [unfold len in Hi; lia | eauto].
Qed.

Lemma list_setitem_in_range l i x :
  0 <= i < len l -> list_setitem l i x = Some (<[Z.to_nat i := x]> l).
Proof. intros Hi. unfold list_setitem. by rewrite py_index_in_range. Qed.

Lemma list_delitem_in_range l i :
  0 <= i < len l -> list_delitem l i = Some (delete (Z.to_nat i) l).
Proof. intros Hi. unfold list_delitem. by rewrite py_index_in_range. Qed.

Lemma list_insert_in_range l i x :
  0 <= i <= len l ->
  list_insert l i x = take (Z.to_nat i) l ++ x :: drop (Z.to_nat i) l.
Proof.
  intros Hi. unfold list_insert. cbv zeta.
  assert (E1 : (i <? 0) = false) by (apply Z.ltb_ge; lia).
  assert (E2 : (len l <? i) = false) by (apply Z.ltb_ge; lia).
  by rewrite !E1, E2.
Qed.

Lemma len_insert l (j : nat) x : len (<[j := x]> l) = len l.
Proof. unfold len. by rewrite length_insert. Qed.

(** Exchanging two neighbours by two stores. *)
Lemma swap_neighbours l (j : nat) a b :
  l !! j = Some a -> l !! S j = Some b ->
  l = take j l ++ a :: b :: drop (S (S j)) l /\
  <[S j := a]> (<[j := b]> l) = take j l ++ b :: a :: drop (S (S j)) l.
Proof.
  intros Ha Hb.
  assert (Hl : l = take j l ++ a :: b :: drop (S (S j)) l).
  { rewrite <- (take_drop_middle l j a) at 1 by done. do 2 f_equal.
    apply (drop_S l b (S j)) in Hb as Hd. by rewrite Hd. }
  split; [done|].
  assert (Hj : length (take j l) = j).
  { rewrite length_take. apply lookup_lt_Some in Ha. lia. }
  rewrite Hl at 1.
  rewrite (insert_app_r_alt _ _ j) by lia.
  rewrite Hj, Nat.sub_diag. cbn [list_insert insert].
  rewrite (insert_app_r_alt _ _ (S j)) by lia.
  rewrite Hj. replace (S j - j)%nat with 1%nat by lia. done.
Qed.

Lemma list_slice_to_prefix l1 l2 n :
  n = len l1 -> list_slice_to (l1 ++ l2) n = l1.
Proof.
  intros ->. unfold list_slice_to, len.
  destruct (Z.ltb_spec (Z.of_nat (length l1)) 0); [lia|].
  rewrite Nat2Z.id. by rewrite take_app_length.
Qed.

Lemma list_slice_to_nil n : list_slice_to (@nil A) n = [].
Proof. unfold list_slice_to. by rewrite take_nil. Qed.

End PyLists.

Lemma length_list_ascii_of_string s :
  length (list_ascii_of_string s) = String.length s.
Proof. induction s as [|c s IH]; cbn; [done | by rewrite IH]. Qed.

Lemma one_edit_length l l' :
  one_edit l l' -> Z.abs (len l' - len l) <= 1.
Proof.
  unfold len. destruct 1; rewrite !length_app; cbn [length]; lia.
Qed.

(** ** The library calls *)

Section Calls.
Context {G F : Type} `{RandomModule G} `{FakerProvider F}.
Implicit Types w : world G F.

Lemma returns_random_random w (Q : Q -> world G F -> Prop) :
  (forall x g, rng_random (py_random w) = (x, g) ->
               Q x (World g (faker_random w))) ->
  returns random_random w Q.
Proof.
  intros HQ. unfold returns, random_random.
  destruct (rng_random (py_random w)) as [x g]. by apply HQ.
Qed.

Lemma returns_fake {A} (provider : F -> A * F) w (Q : A -> world G F -> Prop) :
  (forall x s, provider (faker_random w) = (x, s) ->
               Q x (World (py_random w) s)) ->
  returns (fake provider) w Q.
Proof.
  intros HQ. unfold returns, fake.
  destruct (provider (faker_random w)) as [x s]. by apply HQ.
Qed.

Lemma random_random_eq w x g :
  rng_random (py_random w) = (x, g) ->
  random_random w = Return x (World g (faker_random w)).
Proof. unfold random_random. by intros ->. Qed.

Lemma random_choice_eq {A} (seq : list A) w i g x :
  seq <> [] ->
  rng_randbelow (len seq) (py_random w) = (i, g) ->
  list_getitem seq i = Some x ->
  random_choice seq w = Return x (World g (faker_random w)).
Proof.
  intros Hseq Hi Hx. unfold random_choice.
  destruct (Z.eqb_spec (len seq) 0) as [E|_]; [by apply len_nil_iff in E|].
  unfold bind, random_randbelow. by rewrite Hi, Hx.
Qed.

Lemma random_randint_eq a b w k g :
  a <= b ->
  rng_randbelow (b + 1 - a) (py_random w) = (k, g) ->
  random_randint a b w = Return (a + k) (World g (faker_random w)).
Proof.
  intros Hab Hk. unfold random_randint.
  destruct (Z.ltb_spec 0 (b + 1 - a)); [|lia].
  unfold bind, random_randbelow. by rewrite Hk.
Qed.

Context `{!RandomLaws G}.

Lemma returns_random_randbelow n w (Q : Z -> world G F -> Prop) :
  0 < n ->
  (forall x g, rng_randbelow n (py_random w) = (x, g) -> 0 <= x < n ->
               Q x (World g (faker_random w))) ->
  returns (random_randbelow n) w Q.
Proof.
  intros Hn HQ. unfold returns, random_randbelow.
  pose proof (rng_randbelow_range n (py_random w) Hn) as Hr.
  destruct (rng_randbelow n (py_random w)) as [x g]. by apply HQ.
Qed.

Lemma returns_random_choice {A} (seq : list A) w (Q : A -> world G F -> Prop) :
  seq <> [] ->
  (forall i x g, rng_randbelow (len seq) (py_random w) = (i, g) ->
                 0 <= i < len seq -> seq !! Z.to_nat i = Some x ->
                 Q x (World g (faker_random w))) ->
  returns (random_choice seq) w Q.
Proof.
  intros Hseq HQ. unfold random_choice.
  assert (Hlen : 0 < len seq).
  { destruct seq; [done | unfold len; cbn; lia]. }
  destruct (Z.eqb_spec (len seq) 0); [lia|].
  apply returns_bind, returns_random_randbelow; [done|].
  intros i g Hig Hi.
  destruct (list_getitem_in_range seq i Hi) as (x & Hget & Hx).
  apply returns_or_raise. exists x. split; [done|]. by eapply HQ.
Qed.

Lemma returns_random_randint a b w (Q : Z -> world G F -> Prop) :
  a <= b ->
  (forall k g, rng_randbelow (b + 1 - a) (py_random w) = (k, g) ->
               0 <= k < b + 1 - a -> Q (a + k) (World g (faker_random w))) ->
  returns (random_randint a b) w Q.
Proof.
  intros Hab HQ. unfold random_randint.
  destruct (Z.ltb_spec 0 (b + 1 - a)); [|lia].
  apply returns_bind, returns_random_randbelow; [done|].
  intros k g Hk Hr. apply returns_ret. by apply HQ.
Qed.

End Calls.

(** ** The field corruptor *)

Section Perturb.
Context {G F : Type} `{RandomModule G} `{FakerProvider F} `{!RandomLaws G}.
Implicit Types w : world G F.

(** The operation names [random.choice] draws from. *)
Lemma perturb_apply_edit op idx chars w :
  op ∈ ["del"; "ins"; "rep"; "swap"] ->
  0 <= idx < len chars ->
  returns (perturb_apply op idx chars) w
    (fun chars' _ => chars' = chars \/ one_edit chars chars').
Proof.
  intros Hop Hidx. set (j := Z.to_nat idx).
  assert (Hj : (j < length chars)%nat) by (unfold len in Hidx; lia).
  destruct (lookup_lt_is_Some_2 chars j Hj) as [c Hc].
  pose proof (take_drop_middle chars j c Hc) as Hmid.
  repeat (apply elem_of_cons in Hop as [-> | Hop]); [ | | | | by apply elem_of_nil in Hop];
    unfold perturb_apply; cbn [String.eqb Ascii.eqb Bool.eqb andb].
  - (* del *)
    rewrite list_delitem_in_range by done. apply returns_ret. right.
    fold j. rewrite delete_take_drop. rewrite <- Hmid at 1. constructor.
  - (* ins *)
    apply returns_bind, returns_random_choice; [done|].
    intros i x g _ _ _. apply returns_ret. right.
    rewrite list_insert_in_range by lia. fold j.
    rewrite <- (take_drop j chars) at 1. constructor.
  - (* rep *)
    apply returns_bind, returns_random_choice; [done|].
    intros i x g _ _ _. rewrite list_setitem_in_range by done.
    apply returns_ret. right. fold j.
    rewrite insert_take_drop by done. rewrite <- Hmid at 1. constructor.
  - (* swap *)
    destruct (Z.ltb_spec 1 (len chars)) as [Hlen|Hlen]; [|by left].
    destruct (Z.ltb_spec idx (len chars - 1)) as [Hlast|Hlast].
    + (* with the next character *)
      destruct (list_getitem_in_range chars (idx + 1)) as (a & -> & Ha); [lia|].
      destruct (list_getitem_in_range chars idx) as (b & -> & Hb); [lia|].
      cbn [or_raise]. do 2 returns_step.
      rewrite list_setitem_in_range by lia. cbn [or_raise]. returns_step.
      rewrite list_setitem_in_range by (rewrite len_insert; lia).
      apply returns_ret. right.
      replace (Z.to_nat (idx + 1)) with (S j) in * by lia. fold j in Hb |- *.
      destruct (swap_neighbours chars j b a Hb Ha) as [Hl ->].
      rewrite Hl at 1. constructor.
    + (* the last character, with the previous one *)
      destruct (list_getitem_in_range chars (idx - 1)) as (a & -> & Ha); [lia|].
      destruct (list_getitem_in_range chars idx) as (b & -> & Hb); [lia|].
      cbn [or_raise]. do 2 returns_step.
      rewrite list_setitem_in_range by lia. cbn [or_raise]. returns_step.
      rewrite list_setitem_in_range by (rewrite len_insert; lia).
      apply returns_ret. right.
      set (k := Z.to_nat (idx - 1)) in *.
      replace (Z.to_nat idx) with (S k) in * by lia.
      rewrite list_insert_insert_ne by lia.
      destruct (swap_neighbours chars k a b Ha Hb) as [Hl ->].
      rewrite Hl at 1. constructor.
Qed.

(** [perturb] on a string always returns a string, at most one edit away. *)
Lemma perturb_some t w :
  returns (perturb (Some t)) w
    (fun r _ => exists t', r = Some t' /\ at_most_one_edit t t').
Proof.
  unfold perturb.
  destruct (py_truth (Some t)) eqn:Ht; cbn [negb];
    [|apply returns_ret; exists t; split; [done | by left]].
  apply returns_bind, returns_random_random. intros r g _.
  destruct (float_gt r float_0_3);
    [apply returns_ret; exists t; split; [done | by left]|].
  cbn [fmap option_fmap option_map or_raise]. returns_step.
  set (chars := list_ascii_of_string t).
  assert (Hchars : 0 < len chars).
  { subst chars. unfold len. rewrite length_list_ascii_of_string.
    destruct t; [done | cbn; lia]. }
  apply returns_bind, returns_random_choice; [done|].
  intros k op g2 _ _ Hop. apply list_elem_of_lookup_2 in Hop.
  apply returns_bind, returns_random_randint; [lia|].
  intros idx g3 _ Hidx.
  apply returns_bind.
  eapply returns_mono; [|apply perturb_apply_edit; [done | lia]].
  intros chars' w' Hed. apply returns_ret.
  exists (string_of_list_ascii chars'). split; [done|].
  destruct Hed as [-> | Hed].
  - left. subst chars. apply string_of_list_ascii_of_string.
  - right. by rewrite list_ascii_of_string_of_list_ascii.
Qed.

(** [perturb] never raises. *)
Lemma perturb_returns text w :
  returns (perturb text) w
    (fun r _ => match text with
                | None => r = None
                | Some t => exists t', r = Some t' /\ at_most_one_edit t t'
                end).
Proof. destruct text as [t|]; [apply perturb_some | done]. Qed.

End Perturb.

Lemma at_most_one_edit_length t t' :
  at_most_one_edit t t' ->
  Z.abs (Z.of_nat (String.length t') - Z.of_nat (String.length t)) <= 1.
Proof.
  intros [-> | Hed]; [lia|].
  apply one_edit_length in Hed. unfold len in Hed.
  by rewrite !length_list_ascii_of_string in Hed.
Qed.

(** ** The record generator *)

Section Generate.
Context {G F : Type} `{RandomModule G} `{FakerProvider F}.
Implicit Types (w : world G F) (r orig dup : record).

(** The dropout loop only ever overwrites its three fields with [None],
    and does not touch the provider. *)
Lemma dropout_spec r w :
  returns (dropout r) w
    (fun r' w' =>
       faker_random w' = faker_random w /\
       forall k, r' !! k = r !! k \/
                 (k ∈ ["address"; "city"; "date_of_birth"] /\ r' !! k = Some None)).
Proof.
  unfold dropout.
  apply (returns_for_each
           (fun seen r' w' =>
              faker_random w' = faker_random w /\
              forall k, r' !! k = r !! k \/
                        (k ∈ ["address"; "city"; "date_of_birth"] /\
                         r' !! k = Some None))); [|by auto].
  intros seen field rest r' w' Hfields [Hf Hk].
  assert (Hfield : field ∈ ["address"; "city"; "date_of_birth"]).
  { rewrite Hfields. apply elem_of_app. right. apply elem_of_cons. by left. }
  apply returns_bind, returns_random_random. intros x g _.
  destruct (float_lt x float_0_1); apply returns_ret; cbn; [|by auto].
  split; [done|]. intros k.
  destruct (decide (field = k)) as [<- | Hne].
  - rewrite lookup_insert_eq. by right.
  - rewrite lookup_insert_ne by done. apply Hk.
Qed.

(** [k] is not one of the three fields the dropout loop ranges over. *)
Ltac not_dropped := rewrite !elem_of_cons, elem_of_nil; intuition discriminate.

Lemma dropout_keeps r w k :
  k ∉ ["address"; "city"; "date_of_birth"] ->
  returns (dropout r) w (fun r' _ => r' !! k = r !! k).
Proof.
  intros Hk. eapply returns_mono; [|apply dropout_spec].
  intros r' w' [_ Hr']. by destruct (Hr' k) as [? | [? _]].
Qed.

Lemma dropout_keeps_key r w k :
  is_Some (r !! k) ->
  returns (dropout r) w (fun r' _ => is_Some (r' !! k)).
Proof.
  intros Hk. eapply returns_mono; [|apply dropout_spec].
  intros r' w' [_ Hr']. destruct (Hr' k) as [-> | [_ ->]]; [done | eauto].
Qed.

(** One iteration of the first loop: the record appended carries the
    identifier just drawn in both [id] and [original_id]. *)
Lemma unique_step_spec data w :
  returns (unique_step data) w
    (fun data' w' =>
       exists r,
         data' = data ++ [r] /\
         r !! "id" = Some (Some (fk_uuid4 (faker_random w)).1) /\
         r !! "original_id" = Some (Some (fk_uuid4 (faker_random w)).1) /\
         has_name r /\ is_Some (r !! "address") /\
         faker_random w' = after_unique (faker_random w)).
Proof.
  unfold unique_step, after_unique.
  apply returns_bind, returns_fake. intros uid s1 E1.
  apply returns_bind, returns_fake. intros nm s2 E2.
  apply returns_bind, returns_fake. intros addr s3 E3.
  apply returns_bind, returns_fake. intros cty s4 E4.
  apply returns_bind, returns_fake. intros dob s5 E5.
  cbn [py_random faker_random] in *.
  rewrite E1; cbn [fst snd]. rewrite E2; cbn [fst snd].
  rewrite E3; cbn [fst snd]. rewrite E4; cbn [fst snd].
  rewrite E5; cbn [fst snd]. cbv zeta.
  set (r := dict_update _ _). set (w5 := World _ _).
  assert (Hr : r !! "id" = Some (Some uid) /\
               r !! "original_id" = Some (Some uid) /\
               r !! "name" = Some (Some nm) /\ is_Some (r !! "address")).
  { subst r. unfold dict_update. cbn [foldl fst snd].
    repeat split; by simplify_map_eq. }
  destruct Hr as (Hid & Hoid & Hnm & Haddr).
  apply returns_bind.
  pose proof (dropout_spec r w5) as Hsp.
  pose proof (dropout_keeps r w5 "id" ltac:(not_dropped)) as Hid'.
  pose proof (dropout_keeps r w5 "original_id" ltac:(not_dropped)) as Hoid'.
  pose proof (dropout_keeps r w5 "name" ltac:(not_dropped)) as Hnm'.
  pose proof (dropout_keeps_key r w5 "address" Haddr) as Haddr'.
  unfold returns in *. destruct (dropout r w5) as [r' w'|]; [|done].
  unfold ret. exists r'.
  rewrite Hid', Hoid'. destruct Hsp as [-> _]. repeat split; try done.
  exists nm. by rewrite Hnm'.
Qed.

(** The first pass: [n] records, each its own ground truth. *)
Lemma unique_pass_spec n w :
  returns (repeat_loop n unique_step []) w
    (fun U _ => length U = n /\ Forall unique_ok U).
Proof.
  apply (returns_repeat_loop
           (fun i data _ => length data = i /\ Forall unique_ok data));
    [|by split].
  intros i data w' _ [Hlen Hall].
  eapply returns_mono; [|apply unique_step_spec].
  intros data' w'' (r & -> & Hid & Hoid & Hnm & Haddr & _). split.
  - rewrite length_app. cbn. lia.
  - apply Forall_app. split; [done|]. apply Forall_singleton.
    split; [eexists; eauto | done].
Qed.

(** The second pass reads [name] and [address] of the sampled record,
    keeps its [original_id] and leaves a string in [name]. *)
Lemma duplicate_update_spec `{!RandomLaws G} orig w :
  has_name orig -> is_Some (orig !! "address") ->
  returns (duplicate_update perturb orig) w
    (fun dup _ => dup !! "original_id" = orig !! "original_id" /\ has_name dup).
Proof.
  intros [nm Hnm] [addr Haddr]. unfold duplicate_update, dict_getitem.
  apply returns_bind, returns_fake. intros uid s1 _.
  rewrite Hnm, Haddr. cbn [or_raise]. returns_step.
  apply returns_bind.
  eapply returns_mono; [|apply perturb_some].
  intros nm' w1 (t' & -> & _). cbv beta. returns_step.
  assert (Hfin : forall addr' w2,
    returns (ret (W:=world G F)
               (dict_update orig
                  [("id", Some uid); ("name", Some t'); ("address", addr')])) w2
      (fun dup _ => dup !! "original_id" = orig !! "original_id" /\ has_name dup)).
  { intros addr' w2. apply returns_ret. unfold dict_update, has_name.
    cbn [foldl fst snd]. split; [|exists t']; by simplify_map_eq. }
  apply returns_bind. destruct (py_truth addr).
  - returns_step. eapply returns_mono; [|apply perturb_returns].
    intros addr' w2 _. apply Hfin.
  - apply returns_ret, Hfin.
Qed.

Lemma make_duplicate_spec `{!RandomLaws G} orig w :
  has_name orig -> is_Some (orig !! "address") ->
  returns (make_duplicate orig) w
    (fun dup _ => dup !! "original_id" = orig !! "original_id" /\ has_name dup).
Proof.
  intros Hnm Haddr. unfold make_duplicate. apply returns_bind.
  eapply returns_mono; [|by apply duplicate_update_spec].
  intros dup w1 [Hoid [nm' Hnm']]. cbv beta.
  pose proof (dropout_keeps dup w1 "original_id" ltac:(not_dropped)) as H1.
  pose proof (dropout_keeps dup w1 "name" ltac:(not_dropped)) as H2.
  unfold returns in *. destruct (dropout dup w1) as [dup' w2|]; [|done].
  rewrite H1, <- Hoid. split; [done|]. exists nm'. by rewrite H2.
Qed.

Lemma duplicate_step_spec `{!RandomLaws G} n_unique U D w :
  n_unique = len U -> U <> [] -> Forall unique_ok U ->
  returns (duplicate_step n_unique (U ++ D)) w
    (fun data' _ => exists dup, data' = (U ++ D) ++ [dup] /\
                                duplicate_ok (G:=G) (F:=F) U dup).
Proof.
  intros Hn HU Hall. unfold duplicate_step.
  rewrite list_slice_to_prefix by done.
  apply returns_bind, returns_random_choice; [done|].
  intros i orig g _ _ Horig. apply list_elem_of_lookup_2 in Horig.
  destruct (proj1 (Forall_forall _ _) Hall orig Horig) as (_ & Hnm & Haddr).
  apply returns_bind.
  eapply returns_mono;
    [|apply returns_itself, make_duplicate_spec; done].
  intros dup w1 (Hrun & Hoid & Hdnm). apply returns_ret.
  exists dup. split; [done|]. split; [done|]. exists orig. eauto 6.
Qed.

(** The second pass: [n] rows appended, each built from a row of [U]. *)
Lemma duplicate_pass_spec `{!RandomLaws G} n n_unique U w :
  (n <> O -> n_unique = len U /\ U <> []) -> Forall unique_ok U ->
  returns (repeat_loop n (duplicate_step n_unique) U) w
    (fun data _ => exists D, data = U ++ D /\ length D = n /\
                             Forall (duplicate_ok (G:=G) (F:=F) U) D).
Proof.
  intros HU Hall.
  apply (returns_repeat_loop
           (fun i data _ => exists D, data = U ++ D /\ length D = i /\
                                      Forall (duplicate_ok (G:=G) (F:=F) U) D)).
  - intros i data w' Hi (D & -> & Hlen & HD).
    destruct HU as [Hn HU]; [lia|].
    eapply returns_mono; [|by apply duplicate_step_spec].
    intros data' _ (dup & -> & Hdup). exists (D ++ [dup]).
    rewrite app_assoc, length_app, Forall_app, Forall_singleton. cbn.
    split; [done|]. split; [lia | by split].
  - exists []. by rewrite app_nil_r.
Qed.

Lemma generate_data_unfold n_unique n_duplicates seed w :
  generate_data n_unique n_duplicates seed w =
    (let* data := for_range n_unique unique_step [] in
     for_range n_duplicates (duplicate_step n_unique) data) (seeded seed).
Proof.
  unfold generate_data, bind, Faker_seed, random_seed, seeded, DataFrame, ret.
  cbn [py_random faker_random].
  destruct (for_range n_unique unique_step [] _) as [U w1|]; [|done].
  by destruct (for_range n_duplicates _ U w1).
Qed.

(** Every configuration other than "no unique record but some
    duplicates" returns the rows of the first pass followed by those of
    the second. *)
Lemma generate_data_spec `{!RandomLaws G} n_unique n_duplicates seed w :
  0 < n_unique \/ n_duplicates <= 0 ->
  returns (generate_data n_unique n_duplicates seed) w
    (fun df _ =>
       exists U D w1,
         for_range n_unique unique_step [] (seeded seed) = Return U w1 /\
         df = U ++ D /\
         length U = Z.to_nat n_unique /\ length D = Z.to_nat n_duplicates /\
         Forall unique_ok U /\ Forall (duplicate_ok (G:=G) (F:=F) U) D).
Proof.
  intros Hcfg. unfold returns at 1. rewrite generate_data_unfold.
  apply returns_bind. unfold for_range.
  eapply returns_mono; [|apply returns_itself, unique_pass_spec].
  intros U w1 (Hrun & Hlen & Hall). cbv beta.
  eapply returns_mono; [|apply duplicate_pass_spec; [|done]].
  - intros df _ (D & -> & HlenD & HD). by exists U, D, w1.
  - intros Hnd. destruct Hcfg as [Hpos | Hle]; [|lia].
    split; [unfold len; lia|]. intros ->. cbn in Hlen. lia.
Qed.

(** With no unique record to sample from, the first iteration of the
    second loop fails in [random.choice], before any draw. *)
Lemma generate_data_empty_pool n_unique n_duplicates seed w :
  n_unique <= 0 -> 0 < n_duplicates ->
  generate_data n_unique n_duplicates seed w = Raise IndexError (seeded seed).
Proof.
  intros Hu Hd. rewrite generate_data_unfold. unfold bind, for_range.
  replace (Z.to_nat n_unique) with O by lia.
  destruct (Z.to_nat n_duplicates) as [|k] eqn:Hk; [lia|].
  cbn [repeat_loop ret]. unfold bind, duplicate_step, bind.
  by rewrite list_slice_to_nil.
Qed.

Section Fresh.
Context `{!FreshIds F}.

Lemma after_unique_issued s :
  {[ (fk_uuid4 s).1 ]} ∪ fk_issued s ⊆ fk_issued (after_unique s).
Proof.
  unfold after_unique.
  pose proof (fk_uuid4_issued s) as H1.
  pose proof (fk_name_issued (fk_uuid4 s).2) as H2.
  pose proof (fk_address_issued (fk_name (fk_uuid4 s).2).2) as H3.
  pose proof (fk_city_issued (fk_address (fk_name (fk_uuid4 s).2).2).2) as H4.
  pose proof (fk_date_of_birth_issued
                (fk_city (fk_address (fk_name (fk_uuid4 s).2).2).2).2) as H5.
  etrans; [exact H1|]. etrans; [exact H2|]. etrans; [exact H3|].
  etrans; [exact H4 | exact H5].
Qed.

(** Under the provider contract the first pass never repeats an [id]. *)
Lemma unique_pass_fresh n w :
  returns (repeat_loop n unique_step []) w (fun U _ => NoDup (id_column U)).
Proof.
  eapply returns_mono;
    [|apply (returns_repeat_loop
               (fun _ data w' =>
                  NoDup (id_column data) /\
                  forall uid, Some (Some uid) ∈ id_column data ->
                              uid ∈ fk_issued (faker_random w')))].
  - by intros U w' [HU _].
  - intros i data w' _ [Hnd Hiss].
    eapply returns_mono; [|apply unique_step_spec].
    intros data' w'' (r & -> & Hid & _ & _ & _ & ->).
    pose proof (after_unique_issued (faker_random w')) as Hsub.
    pose proof (fk_uuid4_fresh (faker_random w')) as Hfresh.
    unfold id_column in *. rewrite fmap_app. cbn [fmap list_fmap]. rewrite Hid.
    split.
    + apply NoDup_app. split; [done|]. split; [|apply NoDup_singleton].
      intros x Hx ->%list_elem_of_singleton. by apply Hfresh, Hiss.
    + intros uid [Hin | Hin%list_elem_of_singleton]%elem_of_app.
      * apply Hsub, elem_of_union_r, Hiss, Hin.
      * simplify_eq. apply Hsub. set_solver.
  - split; [constructor | by intros uid ?%elem_of_nil].
Qed.

End Fresh.

End Generate.

(** ** Properties of the corruptor *)

Section PerturbProperties.
Context {G F : Type} `{RandomModule G} `{FakerProvider F}.
Implicit Types w : world G F.

(** Swap drawn at the last position of a text of two or more characters:
    the last two characters change places. *)
Lemma perturb_apply_swap_last (l : list ascii) (a b : ascii) w :
  perturb_apply "swap" (len (l ++ [a; b]) - 1) (l ++ [a; b]) w
  = Return (l ++ [b; a]) w.
Proof.
  set (chars := l ++ [a; b]). set (n := length l).
  assert (Hlen : len chars = Z.of_nat n + 2).
  { subst chars. rewrite len_app. unfold len. cbn. lia. }
  assert (Ha : chars !! n = Some a).
  { subst chars n. by rewrite lookup_app_r, Nat.sub_diag. }
  assert (Hb : chars !! S n = Some b).
  { subst chars n. rewrite lookup_app_r by lia.
    by replace (S (length l) - length l)%nat with 1%nat by lia. }
  unfold perturb_apply. cbn [String.eqb Ascii.eqb Bool.eqb andb].
  assert ((1 <? len chars) = true) as -> by (apply Z.ltb_lt; lia).
  assert ((len chars - 1 <? len chars - 1) = false) as ->
    by apply Z.ltb_irrefl.
  destruct (list_getitem_in_range chars (len chars - 1 - 1)) as (a' & -> & Ha');
    [lia|].
  destruct (list_getitem_in_range chars (len chars - 1)) as (b' & -> & Hb');
    [lia|].
  cbn [or_raise]. rewrite !bind_ret.
  rewrite list_setitem_in_range by lia. cbn [or_raise]. rewrite bind_ret.
  rewrite list_setitem_in_range by (rewrite len_insert; lia).
  replace (Z.to_nat (len chars - 1 - 1)) with n in * by lia.
  replace (Z.to_nat (len chars - 1)) with (S n) in * by lia.
  simplify_eq. cbn [or_raise]. unfold ret. f_equal.
  rewrite list_insert_insert_ne by lia.
  destruct (swap_neighbours chars n a b Ha Hb) as [_ ->].
  subst chars n. rewrite take_app_length.
  by rewrite drop_ge by (rewrite length_app; cbn; lia).
Qed.

(** C8. An absent text comes back absent and an empty text comes back
    empty, from any state of the generator and leaving that state as it
    was: no random number is drawn. *)
Theorem perturb_absent_or_empty w :
  perturb None w = Return None w /\
  perturb (Some "") w = Return (Some "") w.
Proof. by split. Qed.

(** What [perturb] does once its three draws are known to select the
    corrupt branch, the operation at index [k] and the position [i]. *)
Lemma perturb_corrupt_branch t w r k i g op :
  t <> "" ->
  perturb_draws (Z.of_nat (String.length t)) w = (r, k, i, g) ->
  float_gt r float_0_3 = false ->
  list_getitem ["del"; "ins"; "rep"; "swap"] k = Some op ->
  perturb (Some t) w =
    (let* chars' := perturb_apply op i (list_ascii_of_string t) in
     ret (Some (string_of_list_ascii chars'))) (World g (faker_random w)).
Proof.
  intros Ht Hdraws Hr Hop. unfold perturb, perturb_draws in *.
  assert (py_truth (Some t) = true) as ->.
  { destruct t; [done | reflexivity]. }
  assert (Hlen : 0 < Z.of_nat (String.length t)).
  { destruct t; [done | cbn; lia]. }
  destruct (rng_random (py_random w)) as [r0 g1] eqn:Hr0.
  destruct (rng_randbelow 4 g1) as [k0 g2] eqn:Hk.
  destruct (rng_randbelow (Z.of_nat (String.length t)) g2) as [i0 g3] eqn:Hi.
  simplify_eq. cbn [negb].
  rewrite (bind_return _ _ _ _ _ (random_random_eq w r g1 Hr0)), Hr.
  cbn [fmap option_fmap option_map or_raise]. unfold bind at 1, ret at 1.
  erewrite (bind_return (random_choice _));
    [|eapply (random_choice_eq _ _ k); [done | exact Hk | exact Hop]].
  erewrite (bind_return (random_randint _ _)).
  2:{ apply random_randint_eq;
        unfold len; rewrite length_list_ascii_of_string; [lia|].
      replace (Z.of_nat (String.length t) - 1 + 1 - 0)
        with (Z.of_nat (String.length t)) by lia.
      exact Hi. }
  by rewrite Z.add_0_l.
Qed.

Context `{!RandomLaws G}.

(** C6. On a non-empty text, from a state in which the first draw does
    not exceed [0.3] (the corrupt branch), [perturb] returns a text that
    is at most one character-level operation away from its input: one
    character deleted, inserted or replaced, or two neighbours swapped.
    The lengths differ by at most one. *)
Theorem perturb_bounded_edit (t : string) w :
  t <> "" ->
  float_gt (rng_random (py_random w)).1 float_0_3 = false ->
  exists t' w',
    perturb (Some t) w = Return (Some t') w' /\
    at_most_one_edit t t' /\
    Z.abs (Z.of_nat (String.length t') - Z.of_nat (String.length t)) <= 1.
Proof.
  intros _ _.
  destruct (proj1 (returns_exists _ _ _) (perturb_some t w))
    as (r & w' & Hrun & t' & -> & Hed).
  exists t', w'. split; [done|]. split; [done|].
  by apply at_most_one_edit_length.
Qed.

(** C7. On a one-character text [perturb] never raises: the call always
    returns, and so does the statement of each of the four operations at
    the only position there is.  When the swap operation is drawn on it,
    the text comes back unchanged; and on a longer text, when swap is
    drawn at the last position, the last character is exchanged with the
    one before it. *)
Theorem perturb_single_character_safe :
  (forall (c : ascii) w,
      exists t' w', perturb (Some (String c "")) w = Return (Some t') w') /\
  (forall (op : string) (c : ascii) w,
      op ∈ ["del"; "ins"; "rep"; "swap"] ->
      exists chars' w', perturb_apply op 0 [c] w = Return chars' w') /\
  (forall (c : ascii) w r i g,
      perturb_draws 1 w = (r, 3, i, g) ->
      float_gt r float_0_3 = false ->
      perturb (Some (String c "")) w
      = Return (Some (String c "")) (World g (faker_random w))) /\
  (forall (l : list ascii) (a b : ascii) w r g,
      let chars := l ++ [a; b] in
      perturb_draws (len chars) w = (r, 3, len chars - 1, g) ->
      float_gt r float_0_3 = false ->
      perturb (Some (string_of_list_ascii chars)) w
      = Return (Some (string_of_list_ascii (l ++ [b; a])))
               (World g (faker_random w))).
Proof.
  split; [|split; [|split]].
  - intros c w.
    destruct (proj1 (returns_exists _ _ _) (perturb_some (String c "") w))
      as (r & w' & Hrun & t' & -> & _). eauto.
  - intros op c w Hop.
    destruct (proj1 (returns_exists _ _ _)
                (perturb_apply_edit op 0 [c] w Hop ltac:(unfold len; cbn; lia)))
      as (chars' & w' & Hrun & _). eauto.
  - intros c w r i g Hdraws Hr.
    by rewrite (perturb_corrupt_branch _ w r 3 i g "swap").
  - intros l a b w r g chars Hdraws Hr.
    assert (Hlen : len chars = len l + 2).
    { subst chars. rewrite len_app. unfold len. cbn. lia. }
    assert (Hne : string_of_list_ascii chars <> "").
    { subst chars. by destruct l. }
    rewrite (perturb_corrupt_branch _ w r 3 (len chars - 1) g "swap");
      [| done | | done | done].
    2:{ rewrite <- length_list_ascii_of_string,
          list_ascii_of_string_of_list_ascii. exact Hdraws. }
    rewrite list_ascii_of_string_of_list_ascii. subst chars.
    by erewrite bind_return by apply perturb_apply_swap_last.
Qed.

End PerturbProperties.

(** ** Properties of the generator *)

Section GenerateProperties.
Context {G F : Type} `{RandomModule G} `{FakerProvider F}.
Implicit Types w : world G F.

(** C3, as the code has it.  [provider_on e] is the provider as it
    answers in the environment [e] of a call (for Faker the day, which
    [date_of_birth()] reads).  Two calls with the same arguments whose
    providers answer alike have the same outcome (the dataset, and the
    state of both generators afterwards), whatever state the generators
    were in before either call.  The randomness comes from two streams,
    the generator of the [random] module and the one of the provider,
    each seeded from [seed] once, at the start: whatever the two [seed]
    functions are, the call is the two passes run from the pair of states
    [seed] is mapped to, and in the passes the [seed] functions play no
    part. *)
Theorem generate_data_deterministic {E : Type}
    (provider_on : E -> FakerProvider F) n_unique n_duplicates seed :
  (forall e1 e2 w1 w2,
      provider_on e1 = provider_on e2 ->
      generate_data (Fk:=provider_on e1) n_unique n_duplicates seed w1
      = generate_data (Fk:=provider_on e2) n_unique n_duplicates seed w2) /\
  (forall e (f : Z -> G) (fs : Z -> F) w,
      generate_data (Rnd:=reseed_random f _) (Fk:=reseed_faker fs (provider_on e))
        n_unique n_duplicates seed w
      = (let* data := for_range n_unique (unique_step (Fk:=provider_on e)) [] in
         for_range n_duplicates (duplicate_step (Fk:=provider_on e) n_unique) data)
          (World (f seed) (fs seed))).
Proof.
  split.
  - intros e1 e2 w1 w2 Heq. rewrite Heq. by rewrite !generate_data_unfold.
  - intros e f fs w. by rewrite generate_data_unfold.
Qed.

(** C9. When the sampled record has [address = None], the update step
    of a duplicate, for whatever corruptor it is run with, is one
    [uuid4()] draw followed by the corruption of the name alone, with
    [None] stored under [address]: the corruptor is not applied to the
    address.  With [perturb] as the corruptor the step returns, and
    the duplicate it hands to the dropout loop has [address = None]. *)
Theorem duplicate_address_stays_absent `{!RandomLaws G}
    (orig : record) (nm : pyval) w :
  orig !! "name" = Some nm ->
  orig !! "address" = Some None ->
  (forall (corrupt : pyval -> M (world G F) pyval) w0,
      duplicate_update corrupt orig w0
      = (let* uid := fake fk_uuid4 in
         let* nm' := corrupt nm in
         ret (dict_update orig
                [("id", Some uid); ("name", nm'); ("address", None)])) w0) /\
  (exists dup w',
      duplicate_update perturb orig w = Return dup w' /\
      dup !! "address" = Some None).
Proof.
  intros Hnm Haddr.
  assert (Heq : forall (corrupt : pyval -> M (world G F) pyval) w0,
      duplicate_update corrupt orig w0
      = (let* uid := fake fk_uuid4 in
         let* nm' := corrupt nm in
         ret (dict_update orig
                [("id", Some uid); ("name", nm'); ("address", None)])) w0).
  { intros corrupt w0. unfold duplicate_update, dict_getitem.
    rewrite Hnm, Haddr. cbn [or_raise py_truth]. unfold bind.
    destruct (fake fk_uuid4 w0) as [uid w1|]; [|done]. cbn [ret].
    by destruct (corrupt nm w1). }
  split; [done|]. apply returns_exists. unfold returns. rewrite Heq.
  apply returns_bind, returns_fake. intros uid s _.
  apply returns_bind. eapply returns_mono; [|apply perturb_returns].
  intros nm' w' _. apply returns_ret.
  unfold dict_update. cbn [foldl fst snd]. by simplify_map_eq.
Qed.

(** C2, as the code has it.  [generate_data] fails exactly when no
    unique record is requested but some duplicate is: the failure is the
    [IndexError] of [random.choice] on the empty pool, raised before any
    random number is drawn.  Every other configuration, negative counts
    included, returns a dataset, in which a negative count counts as
    zero: the dataset has [max 0 n_unique + max 0 n_duplicates] rows;
    with [n_duplicates <= 0] the call is the first pass alone, so the
    dataset is the unique rows and nothing else; and with
    [n_unique <= 0] it is empty. *)
Theorem generate_data_fails_iff_empty_pool `{!RandomLaws G}
    n_unique n_duplicates seed w :
  (n_unique <= 0 /\ 0 < n_duplicates ->
   generate_data n_unique n_duplicates seed w = Raise IndexError (seeded seed)) /\
  (~ (n_unique <= 0 /\ 0 < n_duplicates) ->
   exists df w',
     generate_data n_unique n_duplicates seed w = Return df w' /\
     len df = Z.max 0 n_unique + Z.max 0 n_duplicates /\
     (n_duplicates <= 0 ->
      for_range n_unique unique_step [] (seeded seed) = Return df w') /\
     (n_unique <= 0 -> df = [])).
Proof.
  split.
  - intros [Hu Hd]. by apply generate_data_empty_pool.
  - intros Hcfg.
    destruct (proj1 (returns_exists _ _ _)
                (generate_data_spec n_unique n_duplicates seed w ltac:(lia)))
      as (df & w' & Hrun & U & D & w1 & HrunU & -> & HlenU & HlenD & _).
    exists (U ++ D), w'. split; [done|]. split; [|split].
    + rewrite len_app. unfold len. lia.
    + intros Hnd. destruct D; [|cbn in HlenD; lia]. rewrite app_nil_r in *.
      rewrite generate_data_unfold in Hrun. unfold bind, for_range in Hrun.
      unfold for_range in HrunU. rewrite HrunU in Hrun.
      replace (Z.to_nat n_duplicates) with O in Hrun by lia.
      cbn [repeat_loop] in Hrun. unfold ret in Hrun.
      injection Hrun as <-. exact HrunU.
    + intros Hnu. destruct U; [|cbn in HlenU; lia].
      destruct D; [done | cbn in HlenD; lia].
Qed.

(** C1. For a positive [n_unique] and a non-negative [n_duplicates],
    [generate_data] returns a dataset of exactly
    [n_unique + n_duplicates] rows. *)
Theorem generate_data_row_count `{!RandomLaws G} n_unique n_duplicates seed w :
  0 < n_unique -> 0 <= n_duplicates ->
  exists df w',
    generate_data n_unique n_duplicates seed w = Return df w' /\
    len df = n_unique + n_duplicates.
Proof.
  intros Hu Hd.
  destruct (proj1 (returns_exists _ _ _)
              (generate_data_spec n_unique n_duplicates seed w ltac:(lia)))
    as (df & w' & Hrun & U & D & _ & _ & -> & HU & HD & _).
  exists (U ++ D), w'. split; [done|]. rewrite len_app. unfold len. lia.
Qed.

(** C10. Whenever a dataset is returned, every row of it has a string
    under [name].  The two facts behind it: the dropout loop leaves
    [name] as it is, and [perturb] turns a string into a string. *)
Theorem generate_data_name_present `{!RandomLaws G} n_unique n_duplicates seed w :
  (0 < n_unique \/ n_duplicates <= 0 ->
   exists df w',
     generate_data n_unique n_duplicates seed w = Return df w' /\
     forall r : record, r ∈ df -> exists nm, r !! "name" = Some (Some nm)) /\
  (forall (r : record) w0,
     exists r' w', dropout r w0 = Return r' w' /\ r' !! "name" = r !! "name") /\
  (forall (t : string) w0,
     exists t' w', perturb (Some t) w0 = Return (Some t') w').
Proof.
  split; [|split].
  - intros Hcfg.
    destruct (proj1 (returns_exists _ _ _)
                (generate_data_spec n_unique n_duplicates seed w Hcfg))
      as (df & w' & Hrun & U & D & _ & _ & -> & _ & _ & HU & HD).
    exists (U ++ D), w'. split; [done|].
    intros r [Hr | Hr]%elem_of_app.
    + by destruct (proj1 (Forall_forall _ _) HU r Hr) as (_ & Hnm & _).
    + by destruct (proj1 (Forall_forall _ _) HD r Hr) as [Hnm _].
  - intros r w0. apply returns_exists, dropout_keeps.
    rewrite !elem_of_cons, elem_of_nil. intuition discriminate.
  - intros t w0.
    destruct (proj1 (returns_exists _ _ _) (perturb_some t w0))
      as (r & w' & Hrun & t' & -> & _). eauto.
Qed.

Context `{!RandomLaws G} `{!FreshIds F}.

(** The first [n_unique] rows of a returned dataset are the rows of the
    first pass. *)
Lemma generate_data_rows n_unique n_duplicates seed w :
  0 < n_unique \/ n_duplicates <= 0 ->
  exists df w',
    generate_data n_unique n_duplicates seed w = Return df w' /\
    let U := take (Z.to_nat n_unique) df in
    let D := drop (Z.to_nat n_unique) df in
    length U = Z.to_nat n_unique /\
    Forall unique_ok U /\ NoDup (id_column U) /\
    Forall (duplicate_ok (G:=G) (F:=F) U) D.
Proof.
  intros Hcfg.
  destruct (proj1 (returns_exists _ _ _)
              (generate_data_spec n_unique n_duplicates seed w Hcfg))
    as (df & w' & Hrun & U & D & w1 & HrunU & -> & HlenU & _ & HU & HD).
  exists (U ++ D), w'. split; [done|]. cbv zeta.
  rewrite <- HlenU, take_app_length, drop_app_length.
  repeat split; try done.
  pose proof (unique_pass_fresh (Z.to_nat n_unique) (seeded seed)) as Hfresh.
  unfold returns, for_range in *. by rewrite HrunU in Hfresh.
Qed.

(** C4. Whenever a dataset is returned, each of its first [n_unique]
    rows has its own [id] as [original_id], and, the provider never
    repeating an identifier, these [id]s are pairwise distinct. *)
Theorem unique_self_reference n_unique n_duplicates seed w :
  0 < n_unique \/ n_duplicates <= 0 ->
  exists df w',
    generate_data n_unique n_duplicates seed w = Return df w' /\
    let uniques := take (Z.to_nat n_unique) df in
    length uniques = Z.to_nat n_unique /\
    (forall r : record, r ∈ uniques ->
       exists uid, r !! "id" = Some (Some uid) /\
                   r !! "original_id" = Some (Some uid)) /\
    NoDup (id_column uniques).
Proof.
  intros Hcfg.
  destruct (generate_data_rows n_unique n_duplicates seed w Hcfg)
    as (df & w' & Hrun & Hlen & HU & Hnd & _).
  exists df, w'. split; [done|]. cbv zeta. split; [done|]. split; [|done].
  intros r Hr. by destruct (proj1 (Forall_forall _ _) HU r Hr) as [Hself _].
Qed.

(** C5. Whenever a dataset is returned, the [original_id] of every row
    is the [id] of exactly one of the first [n_unique] rows; and every
    later row is what [make_duplicate] built from one of the first
    [n_unique] rows, the only rows the second pass samples. *)
Theorem ground_truth_closure n_unique n_duplicates seed w :
  0 < n_unique \/ n_duplicates <= 0 ->
  exists df w',
    generate_data n_unique n_duplicates seed w = Return df w' /\
    (forall r : record, r ∈ df ->
       exists uid,
         r !! "original_id" = Some (Some uid) /\
         exists! j : nat,
           (j < Z.to_nat n_unique)%nat /\
           exists u : record, df !! j = Some u /\ u !! "id" = Some (Some uid)) /\
    (forall dup : record, dup ∈ drop (Z.to_nat n_unique) df ->
       exists orig : record,
         orig ∈ take (Z.to_nat n_unique) df /\
         exists w0 w1 : world G F, make_duplicate orig w0 = Return dup w1).
Proof.
  intros Hcfg.
  destruct (generate_data_rows n_unique n_duplicates seed w Hcfg)
    as (df & w' & Hrun & Hlen & HU & Hnd & HD).
  cbv zeta in *. set (n := Z.to_nat n_unique) in *.
  exists df, w'. split; [done|]. split.
  - intros r Hr.
    (* the unique record [r] refers to *)
    assert (Hu : exists (u : record) uid,
               u ∈ take n df /\ u !! "id" = Some (Some uid) /\
               r !! "original_id" = Some (Some uid)).
    { rewrite <- (take_drop n df) in Hr.
      apply elem_of_app in Hr as [Hr | Hr].
      - destruct (proj1 (Forall_forall _ _) HU r Hr) as ((uid & Hid & Hoid) & _).
        by exists r, uid.
      - destruct (proj1 (Forall_forall _ _) HD r Hr)
          as (_ & orig & Horig & Hoid & _).
        destruct (proj1 (Forall_forall _ _) HU orig Horig)
          as ((uid & Hid & Hoid') & _).
        exists orig, uid. by rewrite Hoid. }
    destruct Hu as (u & uid & Hu & Hid & Hoid).
    exists uid. split; [done|].
    apply elem_of_take in Hu as (j & Hj & Hlt).
    exists j. split; [eauto|].
    intros j' (Hlt' & u' & Hj' & Hid').
    apply (NoDup_lookup _ j j' (Some (Some uid)) Hnd);
      unfold id_column; rewrite list_lookup_fmap, lookup_take_lt by done.
    + by rewrite Hj; cbn; rewrite Hid.
    + by rewrite Hj'; cbn; rewrite Hid'.
  - intros dup Hdup.
    destruct (proj1 (Forall_forall _ _) HD dup Hdup)
      as (_ & orig & Horig & _ & Hbuilt).
    by exists orig.
Qed.

End GenerateProperties.

(** ** More on the corruptor *)

Section PerturbFrame.
Context {G F : Type} `{RandomModule G} `{FakerProvider F} `{!RandomLaws G}.
Implicit Types w : world G F.

Lemma returns_conj {A} (c : M (world G F) A) w (Q Q' : A -> world G F -> Prop) :
  returns c w Q -> returns c w Q' -> returns c w (fun a w' => Q a w' /\ Q' a w').
Proof. unfold returns. by destruct (c w). Qed.

(** Each operation leaves the provider alone and brings in nothing but
    ASCII letters. *)
Lemma perturb_apply_frame op idx chars w :
  op ∈ ["del"; "ins"; "rep"; "swap"] ->
  0 <= idx < len chars ->
  returns (perturb_apply op idx chars) w
    (fun chars' w' =>
       faker_random w' = faker_random w /\
       forall c, c ∈ chars' -> c ∈ chars \/ c ∈ ascii_letters).
Proof.
  intros Hop Hidx. set (j := Z.to_nat idx).
  assert (Hj : (j < length chars)%nat) by (unfold len in Hidx; lia).
  assert (Hset : forall (i : nat) x c,
             (x ∈ chars \/ x ∈ ascii_letters) ->
             c ∈ <[i := x]> chars -> c ∈ chars \/ c ∈ ascii_letters).
  { intros i x c Hx [k Hk]%list_elem_of_lookup_1.
    destruct (decide (i = k)) as [<- | Hne].
    - apply list_lookup_insert_Some in Hk as [(_ & <- & _) | [? _]]; done.
    - rewrite list_lookup_insert_ne in Hk by done.
      left. by eapply list_elem_of_lookup_2. }
  repeat (apply elem_of_cons in Hop as [-> | Hop]); [ | | | | by apply elem_of_nil in Hop];
    unfold perturb_apply; cbn [String.eqb Ascii.eqb Bool.eqb andb].
  - rewrite list_delitem_in_range by done. apply returns_ret. split; [done|].
    intros c Hc. left. by eapply list_elem_of_delete_inv.
  - apply returns_bind, returns_random_choice; [done|].
    intros i x g _ _ Hx. apply returns_ret. split; [done|].
    rewrite list_insert_in_range by lia.
    intros c [Hc | [-> | Hc]%elem_of_cons]%elem_of_app.
    + left. eapply elem_of_sublist; [done | apply sublist_take].
    + right. by eapply list_elem_of_lookup_2.
    + left. eapply elem_of_sublist; [done | apply sublist_drop].
  - apply returns_bind, returns_random_choice; [done|].
    intros i x g _ _ Hx. rewrite list_setitem_in_range by done.
    apply returns_ret. split; [done|]. intros c. apply Hset.
    right. by eapply list_elem_of_lookup_2.
  - destruct (Z.ltb_spec 1 (len chars)) as [Hlen|Hlen];
      [|apply returns_ret; split; [done | by left]].
    set (idx2 := if idx <? len chars - 1 then idx + 1 else idx - 1).
    assert (Hidx2 : 0 <= idx2 < len chars).
    { subst idx2. destruct (Z.ltb_spec idx (len chars - 1)); lia. }
    destruct (list_getitem_in_range chars idx2 Hidx2) as (a & -> & Ha).
    destruct (list_getitem_in_range chars idx Hidx) as (b & -> & Hb).
    cbn [or_raise]. do 2 returns_step.
    rewrite list_setitem_in_range by lia. cbn [or_raise]. returns_step.
    rewrite list_setitem_in_range by (rewrite len_insert; lia).
    apply returns_ret. split; [done|].
    intros c [k Hk]%list_elem_of_lookup_1.
    apply list_elem_of_lookup_2 in Ha, Hb.
    destruct (decide (Z.to_nat idx2 = k)) as [<- | Hne].
    + apply list_lookup_insert_Some in Hk as [(_ & <- & _) | [? _]]; [by left | done].
    + rewrite list_lookup_insert_ne in Hk by done.
      apply (Hset (Z.to_nat idx) a); [by left|]. by eapply list_elem_of_lookup_2.
Qed.

(** [perturb] on a string: a string comes back, at most one edit away,
    with no new character other than ASCII letters, and the provider is
    where it was. *)
Lemma perturb_frame t w :
  returns (perturb (Some t)) w
    (fun r w' => faker_random w' = faker_random w /\
                 exists t', r = Some t' /\ corrupted_text t t').
Proof.
  assert (Hletters : returns (perturb (Some t)) w
            (fun r w' => faker_random w' = faker_random w /\
                         forall t', r = Some t' -> only_adds_letters t t')).
  { unfold perturb.
    destruct (py_truth (Some t)) eqn:Ht; cbn [negb];
      [|apply returns_ret; split; [done|]; intros t' [= <-] c; by left].
    apply returns_bind, returns_random_random. intros r g _.
    destruct (float_gt r float_0_3);
      [apply returns_ret; split; [done|]; intros t' [= <-] c; by left|].
    cbn [fmap option_fmap option_map or_raise]. returns_step.
    set (chars := list_ascii_of_string t).
    assert (Hchars : 0 < len chars).
    { subst chars. unfold len. rewrite length_list_ascii_of_string.
      destruct t; [done | cbn; lia]. }
    apply returns_bind, returns_random_choice; [done|].
    intros k op g2 _ _ Hop. apply list_elem_of_lookup_2 in Hop.
    apply returns_bind, returns_random_randint; [lia|].
    intros idx g3 _ Hidx. apply returns_bind.
    eapply returns_mono; [|apply perturb_apply_frame; [done | lia]].
    intros chars' w' [Hf Hc]. apply returns_ret. split; [done|].
    intros t' [= <-] c. rewrite list_ascii_of_string_of_list_ascii. apply Hc. }
  eapply returns_mono; [|apply (returns_conj _ _ _ _ (perturb_some t w) Hletters)].
  intros r w' [(t' & -> & Hed) [Hf Hl]]. split; [done|].
  exists t'. split; [done|]. split; [done | by apply Hl].
Qed.

End PerturbFrame.

(** ** More on the generator: what each row holds *)

Section GenerateRows.
Context {G F : Type} `{RandomModule G} `{FakerProvider F}.
Implicit Types (w : world G F) (r orig dup : record).

Lemma columns_elem k :
  k ∈ columns <->
  k ∈ ["id"; "original_id"; "name"; "address"; "city"; "date_of_birth"].
Proof. unfold columns. by rewrite elem_of_list_to_set. Qed.

(** The dropout loop on a record that has the three fields. *)
Lemma dropout_full r w :
  (forall k, k ∈ ["address"; "city"; "date_of_birth"] -> is_Some (r !! k)) ->
  returns (dropout r) w
    (fun r' w' =>
       w' = World (py_random w') (faker_random w) /\
       dom r' = dom r /\
       (forall k, k ∉ ["address"; "city"; "date_of_birth"] -> r' !! k = r !! k) /\
       (forall k, k ∈ ["address"; "city"; "date_of_birth"] ->
                  kept_or_dropped (r !! k) (r' !! k))).
Proof.
  intros Hkeys. eapply returns_mono; [|apply dropout_spec].
  intros r' w' [Hf Hr']. split; [by destruct w'; cbn in *; subst|].
  split; [|split].
  - apply set_eq. intros k. rewrite !elem_of_dom.
    destruct (Hr' k) as [-> | [Hk ->]]; [done|].
    split; [intros _; by apply Hkeys | eauto].
  - intros k Hk. by destruct (Hr' k) as [? | [? _]].
  - intros k _. destruct (Hr' k) as [-> | [_ ->]]; [by left | by right].
Qed.

(** One iteration of the first loop, in full. *)
Lemma unique_step_full data w :
  returns (unique_step data) w
    (fun data' w' =>
       exists r, data' = data ++ [r] /\
                 faker_random w' = after_unique (faker_random w) /\
                 unique_row (faker_random w) r).
Proof.
  unfold unique_step, after_unique, unique_row.
  apply returns_bind, returns_fake. intros uid s1 E1.
  apply returns_bind, returns_fake. intros nm s2 E2.
  apply returns_bind, returns_fake. intros addr s3 E3.
  apply returns_bind, returns_fake. intros cty s4 E4.
  apply returns_bind, returns_fake. intros dob s5 E5.
  cbn [py_random faker_random] in *.
  rewrite E1; cbn [fst snd]. rewrite E2; cbn [fst snd].
  rewrite E3; cbn [fst snd]. rewrite E4; cbn [fst snd].
  rewrite E5; cbn [fst snd]. cbv zeta.
  set (r := dict_update _ _). set (w5 := World _ _).
  assert (Hr : dom r = columns /\
               r !! "id" = Some (Some uid) /\
               r !! "original_id" = Some (Some uid) /\
               r !! "name" = Some (Some nm) /\
               r !! "address" = Some (Some (str_replace_char newline ", " addr)) /\
               r !! "city" = Some (Some cty) /\
               r !! "date_of_birth" = Some (Some (str_date dob))).
  { subst r. unfold dict_update. cbn [foldl fst snd]. split.
    - rewrite !dom_insert_L, dom_empty_L. unfold columns. cbn. set_solver.
    - repeat split; by simplify_map_eq. }
  destruct Hr as (Hdom & Hid & Hoid & Hnm & Haddr & Hcty & Hdob).
  apply returns_bind. eapply returns_mono; [|apply dropout_full].
  - intros r' w' (Hw & Hdom' & Hkeep & Hdrop). apply returns_ret.
    exists r'. split; [done|]. split; [by rewrite Hw|].
    rewrite Hdom', !Hkeep by (rewrite !elem_of_cons, elem_of_nil; intuition discriminate).
    rewrite <- Haddr, <- Hcty, <- Hdob.
    repeat split; try done; apply Hdrop; rewrite !elem_of_cons; auto.
  - intros k Hk. apply elem_of_dom. rewrite Hdom. apply columns_elem.
    rewrite !elem_of_cons in *. intuition auto.
Qed.

(** Flattening the address leaves no line feed behind. *)
Lemma str_replace_char_single_line t :
  single_line (str_replace_char newline ", " t).
Proof.
  unfold single_line. induction t as [|c t IH]; [by apply not_elem_of_nil|].
  cbn [str_replace_char].
  destruct (Ascii.eqb_spec c newline) as [-> | Hc].
  - change (", " +:+ str_replace_char newline ", " t)
      with (String "," (String " " (str_replace_char newline ", " t))).
    cbn [list_ascii_of_string]. rewrite !not_elem_of_cons. by repeat split.
  - cbn [list_ascii_of_string]. rewrite not_elem_of_cons. by split; [congruence|].
Qed.

Context `{!RandomLaws G}.

(** What the second loop makes of a sampled record, in full. *)
Lemma make_duplicate_full orig w :
  dom orig = columns -> has_name orig ->
  returns (make_duplicate orig) w
    (fun dup w' =>
       faker_random w' = after_duplicate (faker_random w) /\
       duplicate_row (faker_random w) orig dup).
Proof.
  intros Hdom [nm Hnm].
  assert (Haddr : is_Some (orig !! "address")).
  { apply elem_of_dom. rewrite Hdom. apply columns_elem. rewrite !elem_of_cons. auto. }
  destruct Haddr as [a Haddr].
  unfold make_duplicate, duplicate_update, dict_getitem, after_duplicate, duplicate_row.
  apply returns_bind, returns_bind, returns_fake. intros uid s1 E1.
  cbn [py_random faker_random]. rewrite E1. cbn [fst snd].
  rewrite Hnm, Haddr. cbn [or_raise]. returns_step.
  apply returns_bind. eapply returns_mono; [|apply perturb_frame].
  intros nm' w1 (Hf1 & t' & -> & Hname). cbv beta. returns_step.
  (* the address, corrupted or absent *)
  assert (Haddr' : returns
            (if py_truth a
             then let* addr := or_raise KeyError (Some a) in perturb addr
             else ret None) w1
            (fun addr' w2 =>
               faker_random w2 = s1 /\
               (addr' = None \/
                exists t t'', a = Some t /\ t <> "" /\ addr' = Some t'' /\
                              corrupted_text t t''))).
  { destruct a as [t|]; cbn [py_truth]; [|apply returns_ret; by auto].
    destruct (String.eqb_spec t "") as [-> | Ht]; cbn [negb];
      [apply returns_ret; by auto|].
    cbn [or_raise]. returns_step.
    eapply returns_mono; [|apply perturb_frame].
    intros addr' w2 (Hf2 & t'' & -> & Haddr'). split; [by rewrite Hf2|].
    right. by exists t, t''. }
  apply returns_bind. eapply returns_mono; [|exact Haddr'].
  intros addr' w2 [Hf2 Haddr'']. apply returns_ret.
  set (dup := dict_update orig _).
  assert (Hdup : dom dup = columns /\
                 dup !! "id" = Some (Some uid) /\
                 dup !! "original_id" = orig !! "original_id" /\
                 dup !! "name" = Some (Some t') /\
                 dup !! "address" = Some addr' /\
                 dup !! "city" = orig !! "city" /\
                 dup !! "date_of_birth" = orig !! "date_of_birth").
  { subst dup. unfold dict_update. cbn [foldl fst snd]. split.
    - rewrite !dom_insert_L, Hdom. unfold columns. cbn. set_solver.
    - repeat split; by simplify_map_eq. }
  destruct Hdup as (Hd & Hid & Hoid & Hnm' & Haddr3 & Hcty & Hdob).
  eapply returns_mono; [|apply dropout_full].
  - intros dup' w3 (Hw & Hdom' & Hkeep & Hdrop).
    split; [by rewrite Hw|].
    rewrite Hdom', !Hkeep by (rewrite !elem_of_cons, elem_of_nil; intuition discriminate).
    split; [done|]. split; [done|]. split; [done|].
    split; [by exists nm, t'|].
    rewrite <- Hcty, <- Hdob.
    split; [|split; apply Hdrop; rewrite !elem_of_cons; auto].
    destruct (Hdrop "address" ltac:(rewrite !elem_of_cons; auto)) as [Hk | Hk];
      [|by left].
    rewrite Hk, Haddr3.
    destruct Haddr'' as [-> | (t & t'' & -> & Ht & -> & Hc)]; [by left|].
    right. by exists t, t''.
  - intros k Hk. apply elem_of_dom. rewrite Hd. apply columns_elem.
    rewrite !elem_of_cons in *. intuition auto.
Qed.

(** What a unique row is known to hold, whatever the provider gave. *)
Lemma unique_row_shape s r :
  unique_row s r ->
  dom r = columns /\
  (exists uid, r !! "id" = Some (Some uid) /\ r !! "original_id" = Some (Some uid) /\
               uid = (fk_uuid4 s).1) /\
  has_name r /\
  (r !! "address" = Some None \/
   exists a, r !! "address" = Some (Some a) /\ single_line a).
Proof.
  unfold unique_row.
  destruct (fk_uuid4 s) as [uid s1]. destruct (fk_name s1) as [nm s2].
  destruct (fk_address s2) as [addr s3]. destruct (fk_city s3) as [cty s4].
  destruct (fk_date_of_birth s4) as [dob s5].
  intros (Hdom & Hid & Hoid & Hnm & Haddr & _).
  split; [done|]. split; [by exists uid|]. split; [by exists nm|].
  destruct Haddr as [-> | ->]; [right | by left].
  eexists. split; [done|]. apply str_replace_char_single_line.
Qed.

(** The first pass, in full: row [i] is the unique row of the provider
    state reached after [i] records. *)
Lemma unique_pass_full n w :
  returns (repeat_loop n unique_step []) w
    (fun U w' =>
       length U = n /\
       faker_random w' = Nat.iter n after_unique (faker_random w) /\
       forall i r, U !! i = Some r ->
                   unique_row (Nat.iter i after_unique (faker_random w)) r).
Proof.
  apply (returns_repeat_loop
           (fun k data w' =>
              length data = k /\
              faker_random w' = Nat.iter k after_unique (faker_random w) /\
              forall i r, data !! i = Some r ->
                          unique_row (Nat.iter i after_unique (faker_random w)) r));
    [|by split; [|split; [|intros i r ?]]].
  intros k data w' _ (Hlen & Hf & Hrows).
  eapply returns_mono; [|apply unique_step_full].
  intros data' w'' (r & -> & Hf' & Hr). split; [|split].
  - rewrite length_app. cbn. lia.
  - by rewrite Hf', Hf.
  - intros i r' Hi. apply lookup_app_Some in Hi as [Hi | [Hge Hi]]; [by apply Hrows|].
    apply list_lookup_singleton_Some in Hi as [Hi <-].
    replace i with k by lia. by rewrite <- Hf.
Qed.

(** The second pass, in full: row [j] is a duplicate of a row of [U],
    made at the provider state reached after [j] duplicates. *)
Lemma duplicate_pass_full n n_unique U w :
  (n <> O -> n_unique = len U /\ U <> []) ->
  (forall r, r ∈ U -> dom r = columns /\ has_name r) ->
  returns (repeat_loop n (duplicate_step n_unique) U) w
    (fun data _ =>
       exists D, data = U ++ D /\ length D = n /\
                 forall j dup, D !! j = Some dup ->
                   exists orig, orig ∈ U /\
                     duplicate_row (Nat.iter j after_duplicate (faker_random w))
                       orig dup).
Proof.
  intros HU Hall.
  eapply returns_mono;
    [|apply (returns_repeat_loop
               (fun k data w' =>
                  faker_random w' = Nat.iter k after_duplicate (faker_random w) /\
                  exists D, data = U ++ D /\ length D = k /\
                    forall j dup, D !! j = Some dup ->
                      exists orig, orig ∈ U /\
                        duplicate_row (Nat.iter j after_duplicate (faker_random w))
                          orig dup))].
  - by intros data w' [_ HD].
  - intros k data w' Hk (Hf & D & -> & Hlen & HD).
    destruct HU as [Hn HU]; [lia|].
    unfold duplicate_step. rewrite list_slice_to_prefix by done.
    apply returns_bind, returns_random_choice; [done|].
    intros i orig g _ _ Horig. apply list_elem_of_lookup_2 in Horig.
    destruct (Hall orig Horig) as [Hdom Hnm].
    apply returns_bind. eapply returns_mono; [|by apply make_duplicate_full].
    cbn [faker_random]. intros dup w'' [Hf' Hdup]. apply returns_ret.
    split; [by rewrite Hf', Hf|].
    exists (D ++ [dup]). split; [by rewrite app_assoc|].
    split; [rewrite length_app; cbn; lia|].
    intros j dup' Hj. apply lookup_app_Some in Hj as [Hj | [Hge Hj]]; [by apply HD|].
    apply list_lookup_singleton_Some in Hj as [Hj <-].
    exists orig. split; [done|]. replace j with k by lia. by rewrite <- Hf.
  - split; [done|]. exists []. split; [by rewrite app_nil_r|].
    split; [done|]. by intros j dup ?.
Qed.

(** Every dataset the call returns, row by row. *)
Lemma generate_data_full n_unique n_duplicates seed w :
  0 < n_unique \/ n_duplicates <= 0 ->
  exists df w',
    generate_data n_unique n_duplicates seed w = Return df w' /\
    exists U D,
      df = U ++ D /\
      length U = Z.to_nat n_unique /\ length D = Z.to_nat n_duplicates /\
      (forall i r, U !! i = Some r -> unique_row (provider_before_unique seed i) r) /\
      (forall j dup, D !! j = Some dup ->
         exists orig, orig ∈ U /\
           duplicate_row (provider_before_duplicate seed (length U) j) orig dup).
Proof.
  intros Hcfg. apply returns_exists. unfold returns. rewrite generate_data_unfold.
  apply returns_bind. unfold for_range.
  eapply returns_mono; [|apply unique_pass_full].
  intros U w1 (Hlen & Hf & HU). cbv beta.
  unfold seeded in Hf, HU. cbn [faker_random] in Hf, HU.
  eapply returns_mono; [|apply duplicate_pass_full].
  - intros df _ (D & -> & HlenD & HD). exists U, D.
    split; [done|]. split; [done|]. split; [done|]. split; [done|].
    intros j dup Hj. destruct (HD j dup Hj) as (orig & Horig & Hrow).
    exists orig. split; [done|].
    unfold provider_before_duplicate, provider_before_unique.
    by rewrite Hlen, <- Hf.
  - intros Hnd. destruct Hcfg as [Hpos | Hle]; [|lia].
    split; [unfold len; lia|]. intros ->. cbn in Hlen. lia.
  - intros r [i Hi]%list_elem_of_lookup_1.
    destruct (unique_row_shape _ _ (HU i r Hi)) as (Hdom & _ & Hnm & _). done.
Qed.

End GenerateRows.

(** ** Further properties of the corruptor *)

Section PerturbExtras.
Context {G F : Type} `{RandomModule G} `{FakerProvider F} `{!RandomLaws G}.
Implicit Types w : world G F.

(** X1. [perturb] brings in nothing but ASCII letters and never touches
    the provider: on any string and from any state it returns a string
    whose characters are characters of the input or ASCII letters, and
    Faker's generator is left where it was. *)
Theorem perturb_only_adds_letters (t : string) w :
  exists t' w',
    perturb (Some t) w = Return (Some t') w' /\
    only_adds_letters t t' /\
    faker_random w' = faker_random w.
Proof.
  destruct (proj1 (returns_exists _ _ _) (perturb_frame t w))
    as (r & w' & Hrun & Hf & t' & -> & _ & Hl).
  by exists t', w'.
Qed.

(** X2. What each operation does to the text, once the draws select the
    corrupt branch, the operation number [k] and the position [i].
    Delete removes the character at [i]; insert puts a letter in front of
    the character at [i], so never behind the last one; replace
    overwrites the character at [i] with a letter; swap exchanges the
    characters at [q] and [q + 1], where [q] is [i], or [i - 1] when [i]
    is the last position, and does nothing to a one-character text. *)
Theorem perturb_operation_effect (t : string) w r k i g :
  t <> "" ->
  perturb_draws (Z.of_nat (String.length t)) w = (r, k, i, g) ->
  float_gt r float_0_3 = false ->
  let chars := list_ascii_of_string t in
  let p := Z.to_nat i in
  exists t' w',
    perturb (Some t) w = Return (Some t') w' /\
    (p < length chars)%nat /\
    match k with
    | 0 => list_ascii_of_string t' = take p chars ++ drop (S p) chars
    | 1 => exists c, c ∈ ascii_letters /\
                     list_ascii_of_string t' = take p chars ++ c :: drop p chars
    | 2 => exists c, c ∈ ascii_letters /\
                     list_ascii_of_string t' = take p chars ++ c :: drop (S p) chars
    | _ => (length chars = 1%nat /\ t' = t) \/
           exists a b,
             let q := if (S p <? length chars)%nat then p else (p - 1)%nat in
             chars !! q = Some a /\ chars !! S q = Some b /\
             list_ascii_of_string t' = take q chars ++ b :: a :: drop (S (S q)) chars
    end.
Proof.
  intros Ht Hdraws Hr chars p.
  assert (Hlen : 0 < len chars).
  { subst chars. unfold len. rewrite length_list_ascii_of_string.
    destruct t; [done | cbn; lia]. }
  (* the draws are in range *)
  assert (Hrange : 0 <= k < 4 /\ 0 <= i < len chars).
  { unfold perturb_draws in Hdraws.
    destruct (rng_random (py_random w)) as [r0 g1].
    pose proof (rng_randbelow_range 4 g1 ltac:(lia)) as Hk.
    destruct (rng_randbelow 4 g1) as [k0 g2].
    pose proof (rng_randbelow_range (Z.of_nat (String.length t)) g2) as Hi.
    destruct (rng_randbelow (Z.of_nat (String.length t)) g2) as [i0 g3].
    simplify_eq. cbn in *. split; [done|].
    subst chars. unfold len in *. rewrite length_list_ascii_of_string in *.
    apply Hi. lia. }
  destruct Hrange as [Hk Hi].
  assert (Hp : (p < length chars)%nat) by (subst p; unfold len in Hi; lia).
  destruct (lookup_lt_is_Some_2 chars p Hp) as [c0 Hc0].
  (* it is enough to run the statement of the operation *)
  assert (Hrun : forall op (Q : list ascii -> Prop),
             list_getitem ["del"; "ins"; "rep"; "swap"] k = Some op ->
             returns (perturb_apply op i chars) (World g (faker_random w))
               (fun chars' _ => Q chars') ->
             exists t' w', perturb (Some t) w = Return (Some t') w' /\
                           (p < length chars)%nat /\ Q (list_ascii_of_string t')).
  { intros op Q Hop Hret.
    rewrite (perturb_corrupt_branch t w r k i g op Ht Hdraws Hr Hop).
    fold chars. unfold returns in Hret. unfold bind.
    destruct (perturb_apply op i chars _) as [chars' w'|]; [|done].
    exists (string_of_list_ascii chars'), w'. cbn [ret].
    by rewrite list_ascii_of_string_of_list_ascii. }
  assert (Hcases : k = 0 \/ k = 1 \/ k = 2 \/ k = 3) by lia.
  destruct Hcases as [-> | [-> | [-> | ->]]].
  - apply (Hrun "del" (fun chars' => chars' = take p chars ++ drop (S p) chars));
      [done|]. unfold perturb_apply. cbn [String.eqb Ascii.eqb Bool.eqb].
    rewrite list_delitem_in_range by done. apply returns_ret.
    apply delete_take_drop.
  - apply (Hrun "ins"
             (fun chars' => exists c, c ∈ ascii_letters /\
                                      chars' = take p chars ++ c :: drop p chars));
      [done|]. unfold perturb_apply. cbn [String.eqb Ascii.eqb Bool.eqb].
    apply returns_bind, returns_random_choice; [done|].
    intros j c g' _ _ Hc. apply returns_ret. exists c.
    split; [by eapply list_elem_of_lookup_2|]. apply list_insert_in_range. lia.
  - apply (Hrun "rep"
             (fun chars' => exists c, c ∈ ascii_letters /\
                                      chars' = take p chars ++ c :: drop (S p) chars));
      [done|]. unfold perturb_apply. cbn [String.eqb Ascii.eqb Bool.eqb].
    apply returns_bind, returns_random_choice; [done|].
    intros j c g' _ _ Hc. rewrite list_setitem_in_range by done.
    apply returns_ret. exists c.
    split; [by eapply list_elem_of_lookup_2|]. by apply insert_take_drop.
  - destruct (Hrun "swap"
             (fun chars' =>
                (length chars = 1%nat /\ chars' = chars) \/
                exists a b,
                  let q := if (S p <? length chars)%nat then p else (p - 1)%nat in
                  chars !! q = Some a /\ chars !! S q = Some b /\
                  chars' = take q chars ++ b :: a :: drop (S (S q)) chars))
      as (t' & w' & Hrun' & _ & HQ); [done| |].
    2:{ exists t', w'. split; [done|]. split; [done|].
        destruct HQ as [[Hone HQ] | HQ]; [left | by right].
        split; [done|]. subst chars.
        by rewrite <- (string_of_list_ascii_of_string t'),
             <- (string_of_list_ascii_of_string t), HQ. }
    unfold perturb_apply. cbn [String.eqb Ascii.eqb Bool.eqb andb].
    destruct (Z.ltb_spec 1 (len chars)) as [Hlong|Hshort].
    + destruct (Z.ltb_spec i (len chars - 1)) as [Hlast|Hlast].
      * destruct (list_getitem_in_range chars (i + 1)) as (b & -> & Hb); [lia|].
        destruct (list_getitem_in_range chars i) as (a & -> & Ha); [lia|].
        cbn [or_raise]. do 2 returns_step.
        rewrite list_setitem_in_range by lia. cbn [or_raise]. returns_step.
        rewrite list_setitem_in_range by (rewrite len_insert; lia).
        apply returns_ret. right. exists a, b.
        replace (Z.to_nat (i + 1)) with (S p) in * by lia. fold p in Ha |- *.
        assert ((S p <? length chars)%nat = true) as ->
          by (apply Nat.ltb_lt; unfold len in *; lia).
        cbv zeta. split; [done|]. split; [done|].
        by destruct (swap_neighbours chars p a b Ha Hb) as [_ ->].
      * destruct (list_getitem_in_range chars (i - 1)) as (a & -> & Ha); [lia|].
        destruct (list_getitem_in_range chars i) as (b & -> & Hb); [lia|].
        cbn [or_raise]. do 2 returns_step.
        rewrite list_setitem_in_range by lia. cbn [or_raise]. returns_step.
        rewrite list_setitem_in_range by (rewrite len_insert; lia).
        apply returns_ret. right. exists a, b.
        assert ((S p <? length chars)%nat = false) as ->
          by (apply Nat.ltb_ge; unfold len in *; lia).
        cbv zeta.
        replace (Z.to_nat (i - 1)) with (p - 1)%nat in * by lia.
        replace (Z.to_nat i) with (S (p - 1)) in * by lia.
        split; [done|]. split; [done|].
        rewrite list_insert_insert_ne by lia.
        by destruct (swap_neighbours chars (p - 1) a b Ha Hb) as [_ ->].
    + apply returns_ret. left. split; [unfold len in *; lia | done].
Qed.

End PerturbExtras.

(** ** Further properties of the generator *)

Section GenerateExtras.
Context {G F : Type} `{RandomModule G} `{FakerProvider F} `{!RandomLaws G}.
Implicit Types (w : world G F) (r orig dup : record).

(** X3. The dropout loop touches three fields only: on any record and
    from any state it returns a record in which every key other than
    [address], [city] and [date_of_birth] holds what it held, each of
    these three holds what it held or [None], no key is lost, and the
    provider is left alone. *)
Theorem dropout_touches_three_fields r w :
  exists r' w',
    dropout r w = Return r' w' /\
    faker_random w' = faker_random w /\
    dom r ⊆ dom r' /\
    (forall k, k ∉ ["address"; "city"; "date_of_birth"] -> r' !! k = r !! k) /\
    (forall k, k ∈ ["address"; "city"; "date_of_birth"] ->
               kept_or_dropped (r !! k) (r' !! k)).
Proof.
  destruct (proj1 (returns_exists _ _ _) (dropout_spec r w))
    as (r' & w' & Hrun & Hf & Hr').
  exists r', w'. split; [done|]. split; [done|]. split; [|split].
  - intros k. rewrite !elem_of_dom. intros Hk.
    destruct (Hr' k) as [-> | [_ ->]]; [done | eauto].
  - intros k Hk. by destruct (Hr' k) as [? | [? _]].
  - intros k _. destruct (Hr' k) as [-> | [_ ->]]; [by left | by right].
Qed.

(** X4. An empty address is turned into an absent one: when the sampled
    record holds the empty string under [address], the update step of a
    duplicate, for whatever corruptor it is run with, is one [uuid4()]
    draw followed by the corruption of the name alone, with [None] stored
    under [address]; the corruptor is not applied to the address.  With
    [perturb] as the corruptor the step returns a duplicate whose
    [address] is [None]. *)
Theorem duplicate_empty_address_absent (orig : record) (nm : pyval) w :
  orig !! "name" = Some nm ->
  orig !! "address" = Some (Some "") ->
  (forall (corrupt : pyval -> M (world G F) pyval) w0,
      duplicate_update corrupt orig w0
      = (let* uid := fake fk_uuid4 in
         let* nm' := corrupt nm in
         ret (dict_update orig
                [("id", Some uid); ("name", nm'); ("address", None)])) w0) /\
  (exists dup w',
      duplicate_update perturb orig w = Return dup w' /\
      dup !! "address" = Some None).
Proof.
  intros Hnm Haddr.
  assert (Heq : forall (corrupt : pyval -> M (world G F) pyval) w0,
      duplicate_update corrupt orig w0
      = (let* uid := fake fk_uuid4 in
         let* nm' := corrupt nm in
         ret (dict_update orig
                [("id", Some uid); ("name", nm'); ("address", None)])) w0).
  { intros corrupt w0. unfold duplicate_update, dict_getitem.
    rewrite Hnm, Haddr. cbn [or_raise py_truth String.eqb negb]. unfold bind.
    destruct (fake fk_uuid4 w0) as [uid w1|]; [|done]. cbn [ret].
    by destruct (corrupt nm w1). }
  split; [done|]. apply returns_exists. unfold returns. rewrite Heq.
  apply returns_bind, returns_fake. intros uid s _.
  apply returns_bind. eapply returns_mono; [|apply perturb_returns].
  intros nm' w' _. apply returns_ret.
  unfold dict_update. cbn [foldl fst snd]. by simplify_map_eq.
Qed.

(** X5. The number of rows of every dataset the call returns: a negative
    count counts as zero. *)
Theorem generate_data_row_count_any n_unique n_duplicates seed w :
  0 < n_unique \/ n_duplicates <= 0 ->
  exists df w',
    generate_data n_unique n_duplicates seed w = Return df w' /\
    len df = Z.max 0 n_unique + Z.max 0 n_duplicates.
Proof.
  intros Hcfg.
  destruct (proj1 (returns_exists _ _ _)
              (generate_data_spec n_unique n_duplicates seed w Hcfg))
    as (df & w' & Hrun & U & D & _ & _ & -> & HU & HD & _).
  exists (U ++ D), w'. split; [done|]. rewrite len_app. unfold len. lia.
Qed.

(** X6. The unique rows do not depend on the number of duplicates asked
    for: the first [n_unique] rows of the dataset are the dataset the
    same call gives with no duplicates. *)
Theorem unique_rows_ignore_n_duplicates n_unique n_duplicates seed w :
  0 < n_unique \/ n_duplicates <= 0 ->
  exists df df0 w' w0',
    generate_data n_unique n_duplicates seed w = Return df w' /\
    generate_data n_unique 0 seed w = Return df0 w0' /\
    take (Z.to_nat n_unique) df = df0.
Proof.
  intros Hcfg.
  destruct (proj1 (returns_exists _ _ _)
              (generate_data_spec n_unique n_duplicates seed w Hcfg))
    as (df & w' & Hrun & U & D & w1 & HrunU & -> & HlenU & _).
  destruct (proj1 (returns_exists _ _ _)
              (generate_data_spec n_unique 0 seed w ltac:(lia)))
    as (df0 & w0' & Hrun0 & U0 & D0 & w2 & HrunU0 & -> & _ & HlenD0 & _).
  exists (U ++ D), (U0 ++ D0), w', w0'. split; [done|]. split; [done|].
  destruct D0; [|done]. rewrite app_nil_r, <- HlenU, take_app_length. congruence.
Qed.

(** X7. Every row of a returned dataset has exactly the six columns, with
    a string under [id] and under [original_id]. *)
Theorem dataset_columns n_unique n_duplicates seed w :
  0 < n_unique \/ n_duplicates <= 0 ->
  exists df w',
    generate_data n_unique n_duplicates seed w = Return df w' /\
    forall r : record, r ∈ df ->
      dom r = columns /\
      (exists uid, r !! "id" = Some (Some uid)) /\
      (exists oid, r !! "original_id" = Some (Some oid)).
Proof.
  intros Hcfg.
  destruct (generate_data_full n_unique n_duplicates seed w Hcfg)
    as (df & w' & Hrun & U & D & -> & _ & _ & HU & HD).
  exists (U ++ D), w'. split; [done|].
  assert (HUr : forall r : record, r ∈ U ->
            dom r = columns /\
            exists uid, r !! "id" = Some (Some uid) /\
                        r !! "original_id" = Some (Some uid)).
  { intros r [i Hi]%list_elem_of_lookup_1.
    destruct (unique_row_shape _ _ (HU i r Hi)) as (Hdom & (uid & Hid & Hoid & _) & _).
    eauto. }
  intros r [Hr | [j Hj]%list_elem_of_lookup_1]%elem_of_app.
  - destruct (HUr r Hr) as (Hdom & uid & Hid & Hoid). eauto.
  - destruct (HD j r Hj) as (orig & Horig & Hdom & Hid & Hoid & _).
    destruct (HUr orig Horig) as (_ & uid & _ & Hoid').
    split; [done|]. split; [eauto|]. exists uid. by rewrite Hoid.
Qed.

(** X8. The unique rows hold what the provider gave: row [i] is the unique
    row of the provider state reached after [i] records, with the
    provider's identifier under [id] and [original_id], its name as it
    is, its address with every line feed replaced by [", "] or [None],
    its city and date of birth or [None].  The [random] module decides
    nothing but which optional fields are dropped. *)
Theorem unique_rows_from_provider n_unique n_duplicates seed w :
  0 < n_unique \/ n_duplicates <= 0 ->
  exists df w',
    generate_data n_unique n_duplicates seed w = Return df w' /\
    forall (i : nat) (r : record),
      (i < Z.to_nat n_unique)%nat -> df !! i = Some r ->
      unique_row (provider_before_unique seed i) r.
Proof.
  intros Hcfg.
  destruct (generate_data_full n_unique n_duplicates seed w Hcfg)
    as (df & w' & Hrun & U & D & -> & HlenU & _ & HU & _).
  exists (U ++ D), w'. split; [done|].
  intros i r Hi Hr. apply (HU i). by rewrite lookup_app_l in Hr by lia.
Qed.

(** X9. Every duplicate stays close to the unique row it was made from:
    row [n_unique + j] keeps the [original_id] of one of the first
    [n_unique] rows, has the provider's next identifier under [id], a
    name at most one edit away from that row's name, an address that is
    [None] or at most one edit away from that row's address, and that
    row's city and date of birth, or [None]. *)
Theorem duplicate_rows_similar n_unique n_duplicates seed w :
  0 < n_unique \/ n_duplicates <= 0 ->
  exists df w',
    generate_data n_unique n_duplicates seed w = Return df w' /\
    forall (j : nat) (dup : record),
      df !! (Z.to_nat n_unique + j)%nat = Some dup ->
      exists (i : nat) (orig : record),
        (i < Z.to_nat n_unique)%nat /\ df !! i = Some orig /\
        duplicate_row
          (provider_before_duplicate seed (Z.to_nat n_unique) j) orig dup.
Proof.
  intros Hcfg.
  destruct (generate_data_full n_unique n_duplicates seed w Hcfg)
    as (df & w' & Hrun & U & D & -> & HlenU & _ & _ & HD).
  exists (U ++ D), w'. split; [done|].
  intros j dup Hj. rewrite <- HlenU, lookup_app_r in Hj by lia.
  replace (length U + j - length U)%nat with j in Hj by lia.
  destruct (HD j dup Hj) as (orig & [i Hi]%list_elem_of_lookup_1 & Hrow).
  exists i, orig. rewrite <- HlenU.
  split; [by eapply lookup_lt_Some|]. split; [|done].
  by rewrite lookup_app_l by (by eapply lookup_lt_Some).
Qed.

Lemma newline_not_letter : newline ∉ ascii_letters.
Proof. rewrite list_elem_of_In. cbn. intuition discriminate. Qed.

Lemma corrupted_text_single_line t t' :
  corrupted_text t t' -> single_line t -> single_line t'.
Proof.
  intros [_ Hl] Ht Hin. destruct (Hl _ Hin) as [? | ?]; [done|].
  by apply newline_not_letter.
Qed.

(** X10. No address of a returned dataset spans several lines: whatever
    the provider gave, an address that is not [None] has no line feed in
    it, in unique rows and duplicates alike. *)
Theorem dataset_addresses_single_line n_unique n_duplicates seed w :
  0 < n_unique \/ n_duplicates <= 0 ->
  exists df w',
    generate_data n_unique n_duplicates seed w = Return df w' /\
    forall (r : record) (a : string),
      r ∈ df -> r !! "address" = Some (Some a) -> single_line a.
Proof.
  intros Hcfg.
  destruct (generate_data_full n_unique n_duplicates seed w Hcfg)
    as (df & w' & Hrun & U & D & -> & _ & _ & HU & HD).
  exists (U ++ D), w'. split; [done|].
  assert (HUr : forall (r : record) a, r ∈ U ->
            r !! "address" = Some (Some a) -> single_line a).
  { intros r a [i Hi]%list_elem_of_lookup_1 Ha.
    destruct (unique_row_shape _ _ (HU i r Hi))
      as (_ & _ & _ & [Hnone | (a' & Ha' & Hline)]); congruence. }
  intros r a [Hr | [j Hj]%list_elem_of_lookup_1]%elem_of_app Ha; [by eapply HUr|].
  destruct (HD j r Hj) as (orig & Horig & _ & _ & _ & _ & Haddr & _).
  destruct Haddr as [Hnone | (a0 & a' & Ha0 & _ & Ha' & Hc)]; [congruence|].
  simplify_eq. eapply corrupted_text_single_line; [done|]. by eapply HUr.
Qed.

Context `{!FreshIds F}.

Lemma provider_before_row_step seed (n k : nat) :
  {[ (fk_uuid4 (provider_before_row seed n k)).1 ]}
    ∪ fk_issued (provider_before_row seed n k)
  ⊆ fk_issued (provider_before_row seed n (S k)).
Proof.
  unfold provider_before_row, provider_before_duplicate, provider_before_unique.
  destruct (Nat.ltb_spec k n) as [Hk | Hk];
    destruct (Nat.ltb_spec (S k) n) as [Hk' | Hk']; try lia.
  - cbn [Nat.iter]. apply after_unique_issued.
  - replace (S k - n)%nat with O by lia. replace n with (S k) by lia.
    cbn [Nat.iter]. apply after_unique_issued.
  - replace (S k - n)%nat with (S (k - n)) by lia.
    cbn [Nat.iter]. apply fk_uuid4_issued.
Qed.

Lemma provider_before_row_issued seed (n a b : nat) :
  (a < b)%nat ->
  (fk_uuid4 (provider_before_row seed n a)).1
    ∈ fk_issued (provider_before_row seed n b).
Proof.
  induction 1 as [|b Hab IH].
  - apply provider_before_row_step. set_solver.
  - apply provider_before_row_step. set_solver.
Qed.

(** X11. Under the provider contract every row has an [id] of its own:
    the [id]s of all the rows of a returned dataset, unique rows and
    duplicates together, are pairwise distinct; in particular the [id]
    of a duplicate is never its [original_id]. *)
Theorem dataset_ids_distinct n_unique n_duplicates seed w :
  0 < n_unique \/ n_duplicates <= 0 ->
  exists df w',
    generate_data n_unique n_duplicates seed w = Return df w' /\
    NoDup (id_column df) /\
    forall dup : record, dup ∈ drop (Z.to_nat n_unique) df ->
      dup !! "id" <> dup !! "original_id".
Proof.
  intros Hcfg.
  destruct (generate_data_full n_unique n_duplicates seed w Hcfg)
    as (df & w' & Hrun & U & D & -> & HlenU & _ & HU & HD).
  exists (U ++ D), w'. split; [done|].
  set (n := Z.to_nat n_unique) in *.
  (* the identifier of each row *)
  assert (Hrow : forall (k : nat) (r : record), (U ++ D) !! k = Some r ->
            r !! "id" = Some (Some (fk_uuid4 (provider_before_row seed n k)).1)).
  { intros k r Hk. unfold provider_before_row.
    apply lookup_app_Some in Hk as [Hk | [Hge Hk]].
    - pose proof (lookup_lt_Some _ _ _ Hk) as Hlt.
      destruct (Nat.ltb_spec k n); [|lia].
      by destruct (unique_row_shape _ _ (HU k r Hk)) as (_ & (uid & -> & _ & ->) & _).
    - destruct (Nat.ltb_spec k n); [lia|].
      destruct (HD _ r Hk) as (orig & _ & _ & -> & _). by rewrite HlenU. }
  assert (Hdistinct : forall (a b : nat) (ra rb : record),
            (a < b)%nat -> (U ++ D) !! a = Some ra -> (U ++ D) !! b = Some rb ->
            ra !! "id" <> rb !! "id").
  { intros a b ra rb Hab Ha Hb. rewrite (Hrow a ra Ha), (Hrow b rb Hb).
    intros [= Heq].
    apply (fk_uuid4_fresh (provider_before_row seed n b)).
    rewrite <- Heq. by apply provider_before_row_issued. }
  split.
  - apply NoDup_alt. intros a b x Ha Hb. unfold id_column in *.
    rewrite list_lookup_fmap in Ha, Hb.
    destruct ((U ++ D) !! a) as [ra|] eqn:Era; [|done].
    destruct ((U ++ D) !! b) as [rb|] eqn:Erb; [|done].
    cbn in Ha, Hb. simplify_eq.
    destruct (Nat.lt_trichotomy a b) as [Hlt | [-> | Hlt]]; [|done|].
    + by destruct (Hdistinct a b ra rb Hlt Era Erb).
    + by destruct (Hdistinct b a rb ra Hlt Erb Era).
  - rewrite <- HlenU, drop_app_length.
    intros dup [j Hj]%list_elem_of_lookup_1.
    destruct (HD j dup Hj) as (orig & [i Hi]%list_elem_of_lookup_1 & _ & _ & Hoid & _).
    destruct (unique_row_shape _ _ (HU i orig Hi)) as (_ & (uid & Hid & Hoid' & _) & _).
    rewrite Hoid, Hoid', <- Hid.
    pose proof (lookup_lt_Some _ _ _ Hi) as Hlt.
    intros Heq. eapply (Hdistinct i (length U + j)%nat orig dup); [lia | | | done].
    + by rewrite lookup_app_l.
    + rewrite lookup_app_r by lia.
      by replace (length U + j - length U)%nat with j by lia.
Qed.

End GenerateExtras.

(** ** The concrete instance satisfies the contracts *)

Module ConcreteLaws.
Import Concrete.

#[export] Instance script_random_laws : RandomLaws script_rng.
Proof.
  constructor. intros n g Hn. cbn.
  destruct (next_raw g) as [x g']. cbn. by apply Z.mod_pos_bound.
Qed.

Lemma issued_spec (n : nat) (x : string) :
  x ∈ issued n <-> exists k : nat, x = "id-" +:+ pretty k /\ (k < n)%nat.
Proof.
  unfold issued. rewrite elem_of_list_to_set, list_elem_of_fmap.
  split; intros (k & -> & Hk); exists k; (split; [done|]).
  - apply elem_of_seq in Hk. lia.
  - apply elem_of_seq. lia.
Qed.

Lemma issued_mono (n : nat) : issued n ⊆ issued (S n).
Proof.
  intros x (k & -> & Hk)%issued_spec. apply issued_spec. exists k. split; [done | lia].
Qed.

Lemma counter_uuid4_fresh (n : nat) : (fk_uuid4 n).1 ∉ issued n.
Proof.
  intros (k & Hk & Hlt)%issued_spec.
  assert (Hpre : forall a b, "id-" +:+ a = "id-" +:+ b -> a = b)
    by (intros a b [=]; done).
  apply Hpre, pretty_nat_inj in Hk. lia.
Qed.

Lemma counter_uuid4_issued (n : nat) :
  {[ (fk_uuid4 n).1 ]} ∪ issued n ⊆ issued (fk_uuid4 n).2.
Proof.
  intros x [->%elem_of_singleton | Hx]%elem_of_union;
    cbn [fk_uuid4 counter_faker fst snd].
  - apply issued_spec. exists n. split; [done | lia].
  - by apply issued_mono.
Qed.

#[export] Instance counter_fresh : FreshIds nat := {
  fk_issued := issued;
  fk_uuid4_fresh := counter_uuid4_fresh;
  fk_uuid4_issued := counter_uuid4_issued;
  fk_name_issued := issued_mono;
  fk_address_issued := issued_mono;
  fk_city_issued := issued_mono;
  fk_date_of_birth_issued := issued_mono;
}.

End ConcreteLaws.

(** ** Running the model *)

Import Concrete ConcreteLaws.

(** The two thresholds, at the neighbouring results of [random.random()]. *)
Example float_0_3_threshold :
  float_gt (2702159776422297 # 9007199254740992) float_0_3 = false /\
  float_gt (2702159776422298 # 9007199254740992) float_0_3 = true.
Proof. by split. Qed.

Example float_0_1_threshold :
  float_lt (900719925474099 # 9007199254740992) float_0_1 = true /\
  float_lt (900719925474100 # 9007199254740992) float_0_1 = false.
Proof. by split. Qed.

(** [perturb] on ["abc"], one example per branch.  The script lists the
    raw draws: the float numerator, the operation, the position and, for
    an insertion or a replacement, the letter. *)
Example perturb_pass_through :
  perturb (Some "abc") (scripted [2702159776422298]) = Return (Some "abc") (scripted []).
Proof. reflexivity. Qed.

Example perturb_del :
  perturb (Some "abc") (scripted [0; 0; 1]) = Return (Some "ac") (scripted []).
Proof. reflexivity. Qed.

Example perturb_ins :
  perturb (Some "abc") (scripted [0; 1; 1; 26]) = Return (Some "aAbc") (scripted []).
Proof. reflexivity. Qed.

Example perturb_rep :
  perturb (Some "abc") (scripted [0; 2; 1; 25]) = Return (Some "azc") (scripted []).
Proof. reflexivity. Qed.

Example perturb_swap :
  perturb (Some "abc") (scripted [0; 3; 0]) = Return (Some "bac") (scripted []).
Proof. reflexivity. Qed.

Example perturb_swap_last :
  perturb (Some "abc") (scripted [0; 3; 2]) = Return (Some "acb") (scripted []).
Proof. reflexivity. Qed.

(** One unique record and one duplicate: two rows, the second pointing at
    the first. *)
Example generate_data_one_and_one :
  observe ground_truth (generate_data 1 1 0 (scripted []))
  = Some [(Some (Some "id-0"), Some (Some "id-0"));
          (Some (Some "id-5"), Some (Some "id-0"))].
Proof. vm_compute. reflexivity. Qed.

Example generate_data_no_unique :
  observe ground_truth (generate_data 0 5 1 (scripted [])) = None.
Proof. vm_compute. reflexivity. Qed.

(** ** The properties on the concrete instance *)

Lemma generate_data_row_count_witness :
  0 < 200 /\ 0 <= 40 /\
  exists df w',
    generate_data 200 40 42 (scripted []) = Return df w' /\ len df = 200 + 40.
Proof.
  split; [lia|]. split; [lia|].
  apply (generate_data_row_count 200 40 42 (scripted [])); lia.
Defined.

(** C2 as stated does not hold: a negative [n_duplicates] is not
    rejected, the call returns the five unique rows. *)
Lemma generate_data_negative_count_not_rejected :
  -1 < 0 /\
  ~ fails (generate_data 5 (-1) 1) (scripted []) /\
  exists df w', generate_data 5 (-1) 1 (scripted []) = Return df w' /\ len df = 5.
Proof.
  split; [lia|]. unfold fails.
  assert (Hrows : observe len (generate_data 5 (-1) 1 (scripted [])) = Some 5)
    by (vm_compute; reflexivity).
  destruct (generate_data 5 (-1) 1 (scripted [])) as [df w'|e w']; [|done].
  split.
  - by intros (e & w'' & [=]).
  - exists df, w'. split; [done|]. by injection Hrows.
Qed.

Lemma generate_data_fails_iff_empty_pool_witness :
  ((0 <= 0 /\ 0 < 5) /\
   generate_data 0 5 1 (scripted []) = Raise IndexError (seeded 1)) /\
  (~ (5 <= 0 /\ 0 < -1) /\
   exists df w',
     generate_data 5 (-1) 1 (scripted []) = Return df w' /\
     len df = Z.max 0 5 + Z.max 0 (-1) /\
     (-1 <= 0 -> for_range 5 unique_step [] (seeded 1) = Return df w') /\
     (5 <= 0 -> df = [])) /\
  (~ (-3 <= 0 /\ 0 < 0) /\
   exists df w',
     generate_data (-3) 0 1 (scripted []) = Return df w' /\
     len df = Z.max 0 (-3) + Z.max 0 0 /\
     (0 <= 0 -> for_range (-3) unique_step [] (seeded 1) = Return df w') /\
     (-3 <= 0 -> df = [])).
Proof.
  split; [|split].
  - split; [lia|].
    apply (generate_data_fails_iff_empty_pool 0 5 1 (scripted [])). lia.
  - split; [lia|].
    apply (generate_data_fails_iff_empty_pool 5 (-1) 1 (scripted [])). lia.
  - split; [lia|].
    apply (generate_data_fails_iff_empty_pool (-3) 0 1 (scripted [])). lia.
Defined.

(** C3 as stated does not hold.  One unique record: the call leaves both
    generators past their seeded states, three draws of the [random]
    module and five provider calls, so it draws from two streams; and
    the same call on two different days gives two different datasets. *)
Lemma generate_data_two_streams :
  final_world (generate_data 1 0 42 (scripted []))
  = World (Nat.iter 3 (fun g => (next_raw g).2) (rng_seed 42))
          (Nat.iter 5 S (fk_seed 42)) /\
  Nat.iter 3 (fun g => (next_raw g).2) (rng_seed 42) <> rng_seed 42 /\
  Nat.iter 5 S (fk_seed 42) <> fk_seed 42 /\
  observe (fmap (fun r : record => r !! "date_of_birth"))
    (generate_data (Fk:=dated_faker (Date 2026 11 3)) 1 0 42 (scripted []))
  <> observe (fmap (fun r : record => r !! "date_of_birth"))
       (generate_data (Fk:=dated_faker (Date 2027 11 3)) 1 0 42 (scripted [])).
Proof.
  split; [by vm_compute|]. split; [by vm_compute|]. split; [by vm_compute|].
  by vm_compute.
Qed.

Lemma generate_data_deterministic_witness :
  dated_faker (Date 2026 11 3) = dated_faker (Date 2026 11 3) /\
  generate_data (Fk:=dated_faker (Date 2026 11 3)) 200 40 42 (scripted [7; 1; 4])
  = generate_data (Fk:=dated_faker (Date 2026 11 3)) 200 40 42
      (World (ScriptRng [] 99) 5%nat).
Proof.
  split; [reflexivity|].
  apply (generate_data_deterministic dated_faker 200 40 42); reflexivity.
Defined.

Lemma unique_self_reference_witness :
  (0 < 200 \/ 40 <= 0) /\
  exists df w',
    generate_data 200 40 42 (scripted []) = Return df w' /\
    let uniques := take (Z.to_nat 200) df in
    length uniques = Z.to_nat 200 /\
    (forall r : record, r ∈ uniques ->
       exists uid, r !! "id" = Some (Some uid) /\
                   r !! "original_id" = Some (Some uid)) /\
    NoDup (id_column uniques).
Proof.
  split; [left; lia|].
  apply (unique_self_reference 200 40 42 (scripted [])). left. lia.
Defined.

Lemma ground_truth_closure_witness :
  (0 < 200 \/ 40 <= 0) /\
  exists df w',
    generate_data 200 40 42 (scripted []) = Return df w' /\
    (forall r : record, r ∈ df ->
       exists uid,
         r !! "original_id" = Some (Some uid) /\
         exists! j : nat,
           (j < Z.to_nat 200)%nat /\
           exists u : record, df !! j = Some u /\ u !! "id" = Some (Some uid)) /\
    (forall dup : record, dup ∈ drop (Z.to_nat 200) df ->
       exists orig : record,
         orig ∈ take (Z.to_nat 200) df /\
         exists w0 w1 : world script_rng nat,
           make_duplicate orig w0 = Return dup w1).
Proof.
  split; [left; lia|].
  apply (ground_truth_closure 200 40 42 (scripted [])). left. lia.
Defined.

Lemma perturb_bounded_edit_witness :
  "abc" <> "" /\
  float_gt (rng_random (py_random (scripted [0; 3; 2]))).1 float_0_3 = false /\
  exists t' w',
    perturb (Some "abc") (scripted [0; 3; 2]) = Return (Some t') w' /\
    at_most_one_edit "abc" t' /\
    Z.abs (Z.of_nat (String.length t') - Z.of_nat (String.length "abc")) <= 1.
Proof.
  split; [discriminate|]. split; [reflexivity|].
  apply (perturb_bounded_edit "abc" (scripted [0; 3; 2])); [discriminate | reflexivity].
Defined.

Lemma perturb_single_character_safe_witness :
  (exists t' w', perturb (Some "a") (scripted [0; 3; 0]) = Return (Some t') w') /\
  ("swap" ∈ ["del"; "ins"; "rep"; "swap"] /\
   exists chars' w',
     perturb_apply "swap" 0 ["a"%char] (scripted []) = Return chars' w') /\
  (perturb_draws 1 (scripted [0; 3; 0]) = (0 # 9007199254740992, 3, 0, ScriptRng [] 0) /\
   float_gt (0 # 9007199254740992) float_0_3 = false /\
   perturb (Some "a") (scripted [0; 3; 0]) = Return (Some "a") (scripted [])) /\
  (perturb_draws 3 (scripted [0; 3; 2]) = (0 # 9007199254740992, 3, 3 - 1, ScriptRng [] 0) /\
   float_gt (0 # 9007199254740992) float_0_3 = false /\
   perturb (Some "abc") (scripted [0; 3; 2]) = Return (Some "acb") (scripted [])).
Proof.
  destruct (perturb_single_character_safe (G:=script_rng) (F:=nat))
    as (Hsafe & Hops & Hone & Hlast).
  split; [apply Hsafe|]. split; [|split].
  - assert (Hin : "swap" ∈ ["del"; "ins"; "rep"; "swap"])
      by (apply list_elem_of_In; cbn; auto).
    split; [exact Hin | apply Hops, Hin].
  - split; [reflexivity|]. split; [reflexivity|].
    apply (Hone "a"%char (scripted [0; 3; 0]) (0 # 9007199254740992) 0 (ScriptRng [] 0));
      reflexivity.
  - split; [reflexivity|]. split; [reflexivity|].
    apply (Hlast ["a"%char] "b"%char "c"%char (scripted [0; 3; 2])
             (0 # 9007199254740992) (ScriptRng [] 0)); reflexivity.
Defined.

Lemma duplicate_address_stays_absent_witness :
  sample_record !! "name" = Some (Some "Ann Lee") /\
  sample_record !! "address" = Some None /\
  (forall (corrupt : pyval -> M (world script_rng nat) pyval) w0,
      duplicate_update corrupt sample_record w0
      = (let* uid := fake fk_uuid4 in
         let* nm' := corrupt (Some "Ann Lee") in
         ret (dict_update sample_record
                [("id", Some uid); ("name", nm'); ("address", None)])) w0) /\
  (exists dup w',
      duplicate_update perturb sample_record (scripted []) = Return dup w' /\
      dup !! "address" = Some None).
Proof.
  split; [reflexivity|]. split; [reflexivity|].
  apply (duplicate_address_stays_absent sample_record (Some "Ann Lee") (scripted []));
    reflexivity.
Defined.

Lemma generate_data_name_present_witness :
  (0 < 200 \/ 40 <= 0) /\
  exists df w',
    generate_data 200 40 42 (scripted []) = Return df w' /\
    forall r : record, r ∈ df -> exists nm, r !! "name" = Some (Some nm).
Proof.
  split; [left; lia|].
  apply (generate_data_name_present 200 40 42 (scripted [])). left. lia.
Defined.

(** ** The further properties on the concrete instance *)

Lemma perturb_operation_effect_witness :
  "abc" <> "" /\
  perturb_draws (Z.of_nat (String.length "abc")) (scripted [0; 1; 1; 26])
  = (0 # 9007199254740992, 1, 1, ScriptRng [26] 0) /\
  float_gt (0 # 9007199254740992) float_0_3 = false /\
  exists t' w',
    perturb (Some "abc") (scripted [0; 1; 1; 26]) = Return (Some t') w' /\
    (1 < 3)%nat /\
    exists c, c ∈ ascii_letters /\
              list_ascii_of_string t' = ["a"%char] ++ c :: ["b"%char; "c"%char].
Proof.
  split; [discriminate|]. split; [reflexivity|]. split; [reflexivity|].
  apply (perturb_operation_effect "abc" (scripted [0; 1; 1; 26])
           (0 # 9007199254740992) 1 1 (ScriptRng [26] 0));
    [discriminate | reflexivity | reflexivity].
Defined.

Lemma duplicate_empty_address_absent_witness :
  sample_record_empty_address !! "name" = Some (Some "Ann Lee") /\
  sample_record_empty_address !! "address" = Some (Some "") /\
  (forall (corrupt : pyval -> M (world script_rng nat) pyval) w0,
      duplicate_update corrupt sample_record_empty_address w0
      = (let* uid := fake fk_uuid4 in
         let* nm' := corrupt (Some "Ann Lee") in
         ret (dict_update sample_record_empty_address
                [("id", Some uid); ("name", nm'); ("address", None)])) w0) /\
  (exists dup w',
      duplicate_update perturb sample_record_empty_address (scripted [])
      = Return dup w' /\
      dup !! "address" = Some None).
Proof.
  split; [reflexivity|]. split; [reflexivity|].
  apply (duplicate_empty_address_absent sample_record_empty_address
           (Some "Ann Lee") (scripted []));
    reflexivity.
Defined.

Lemma generate_data_row_count_any_witness :
  (0 < 5 \/ -1 <= 0) /\
  exists df w',
    generate_data 5 (-1) 1 (scripted []) = Return df w' /\
    len df = Z.max 0 5 + Z.max 0 (-1).
Proof.
  split; [left; lia|].
  apply (generate_data_row_count_any 5 (-1) 1 (scripted [])). left. lia.
Defined.

Lemma unique_rows_ignore_n_duplicates_witness :
  (0 < 200 \/ 40 <= 0) /\
  exists df df0 w' w0',
    generate_data 200 40 42 (scripted []) = Return df w' /\
    generate_data 200 0 42 (scripted []) = Return df0 w0' /\
    take (Z.to_nat 200) df = df0.
Proof.
  split; [left; lia|].
  apply (unique_rows_ignore_n_duplicates 200 40 42 (scripted [])). left. lia.
Defined.

Lemma dataset_columns_witness :
  (0 < 200 \/ 40 <= 0) /\
  exists df w',
    generate_data 200 40 42 (scripted []) = Return df w' /\
    forall r : record, r ∈ df ->
      dom r = columns /\
      (exists uid, r !! "id" = Some (Some uid)) /\
      (exists oid, r !! "original_id" = Some (Some oid)).
Proof.
  split; [left; lia|].
  apply (dataset_columns 200 40 42 (scripted [])). left. lia.
Defined.

Lemma unique_rows_from_provider_witness :
  (0 < 200 \/ 40 <= 0) /\
  exists df w',
    generate_data 200 40 42 (scripted []) = Return df w' /\
    forall (i : nat) (r : record),
      (i < Z.to_nat 200)%nat -> df !! i = Some r ->
      unique_row (provider_before_unique 42 i) r.
Proof.
  split; [left; lia|].
  apply (unique_rows_from_provider 200 40 42 (scripted [])). left. lia.
Defined.

Lemma duplicate_rows_similar_witness :
  (0 < 200 \/ 40 <= 0) /\
  exists df w',
    generate_data 200 40 42 (scripted []) = Return df w' /\
    forall (j : nat) (dup : record),
      df !! (Z.to_nat 200 + j)%nat = Some dup ->
      exists (i : nat) (orig : record),
        (i < Z.to_nat 200)%nat /\ df !! i = Some orig /\
        duplicate_row (provider_before_duplicate 42 (Z.to_nat 200) j) orig dup.
Proof.
  split; [left; lia|].
  apply (duplicate_rows_similar 200 40 42 (scripted [])). left. lia.
Defined.

Lemma dataset_addresses_single_line_witness :
  (0 < 200 \/ 40 <= 0) /\
  exists df w',
    generate_data 200 40 42 (scripted []) = Return df w' /\
    forall (r : record) (a : string),
      r ∈ df -> r !! "address" = Some (Some a) -> single_line a.
Proof.
  split; [left; lia|].
  apply (dataset_addresses_single_line 200 40 42 (scripted [])). left. lia.
Defined.

Lemma dataset_ids_distinct_witness :
  (0 < 200 \/ 40 <= 0) /\
  exists df w',
    generate_data 200 40 42 (scripted []) = Return df w' /\
    NoDup (id_column df) /\
    forall dup : record, dup ∈ drop (Z.to_nat 200) df ->
      dup !! "id" <> dup !! "original_id".
Proof.
  split; [left; lia|].
  apply (dataset_ids_distinct 200 40 42 (scripted [])). left. lia.
Defined.

Lemma perturb_only_adds_letters_witness :
  exists t' w',
    perturb (Some "abc") (scripted [0; 1; 1; 26]) = Return (Some t') w' /\
    only_adds_letters "abc" t' /\
    faker_random w' = faker_random (scripted [0; 1; 1; 26]).
Proof. apply (perturb_only_adds_letters "abc" (scripted [0; 1; 1; 26])). Defined.

Lemma dropout_touches_three_fields_witness :
  exists r' w',
    dropout sample_record (scripted [0; 0; 0]) = Return r' w' /\
    faker_random w' = faker_random (scripted [0; 0; 0]) /\
    dom sample_record ⊆ dom r' /\
    (forall k, k ∉ ["address"; "city"; "date_of_birth"] ->
               r' !! k = sample_record !! k) /\
    (forall k, k ∈ ["address"; "city"; "date_of_birth"] ->
               kept_or_dropped (sample_record !! k) (r' !! k)).
Proof. apply (dropout_touches_three_fields sample_record (scripted [0; 0; 0])). Defined.
